(** * ICT_Calculation: charge-transfer distance (DCT) and transferred charge (qCT)

    A shallow embedding of [ict.py] and the verification of its
    specification.  The script reads two Gaussian cube files, splits the
    density difference into its positive and negative parts, and derives
    the two centroids, their distance and the transferred charge.

    Modelling decisions.
    - Numbers.  The script computes on float64.  The embedding idealises a
      density sample as an exact rational in canonical form ([Qc], whose
      equality is Leibniz equality), so rounding, infinities and NaN are
      outside the model.  The only irrational operation, the square root
      inside [np.linalg.norm], lands in the real numbers [R].
      Python's integers are unbounded and so are the embedding's ([Z]);
      the grid sizes alone pass through [np.array], whose integers have
      64 bits, before they are used as a shape.
    - Arrays.  The density fields are arrays of rank 3.  Such an array is
      its shape together with its flat row-major buffer, as numpy stores
      it; elementwise operations follow numpy's broadcasting rule and
      raise [ValueError] when the shapes are incompatible.
    - Effects.  Exceptions and the [logging] calls are threaded through a
      small writer-and-exception monad [M]: a computation yields the log
      entries it emitted and either a value or the exception it raised.
    - Concurrency.  The two [ThreadPoolExecutor] blocks of
      [calculate_centroid] submit three independent tasks and collect
      [future.result()] in submission order; the embedding runs the three
      tasks in that order. *)

From Stdlib Require Import Bool String Ascii.
From Stdlib Require Import ZArith QArith Qcanon Qreals Reals Lra Lia List.
Import ListNotations.

Set Implicit Arguments.

Local Close Scope R_scope.
Local Close Scope Q_scope.
Local Open Scope nat_scope.

(** ** Exceptions, log entries and the monad *)

(** The exceptions the script can raise.  [DivideByZero] is the fault of a
    division by zero in exact arithmetic (numpy itself would emit a
    RuntimeWarning and produce inf or nan). *)
Inductive exn : Type :=
| FileNotFoundError
| IndexError
| ValueError
| TypeError
| DivideByZero.

Inductive result (A : Type) : Type :=
| Ok (a : A)
| Raise (e : exn).

Arguments Ok {A} a.
Arguments Raise {A} e.

Inductive level : Type := DEBUG | INFO | WARNING | ERROR.

Definition shape3 : Type := (nat * nat * nat)%type.

(** One constructor per [logging] call of the script, carrying the values
    the message is formatted from. *)
Inductive message : Type :=
| Reading_cube_file (filename : string)
| Cube_file_not_found (filename : string)
| Number_of_atoms (num_atoms : Z)
| Origin_of_the_grid (origin : list Qc)
| Grid_size_along_axis (i : nat) (n : Z) (spacing : list Qc)
| Successfully_read (filename : string)
| Density_data_shape (s : shape3)
| Computed_density_differences
| Delta_rho_positive_sum (s : Qc)
| Delta_rho_negative_sum (s : Qc)
| Total_density_is_zero
| Calculated_centroid (c : list Qc)
| Computed_DCT_and_qCT
| DCT_value (dct : R)
| QCT_value (qct : Qc)
| Centroid_plus_value (c : list Qc)
| Centroid_minus_value (c : list Qc)
| Starting_calculation
| Error_while_reading (e : exn)
| Mismatch_in_grid_size.

Definition entry : Type := (level * message)%type.

Definition M (A : Type) : Type := (list entry * result A)%type.

Definition ret {A} (a : A) : M A := ([], Ok a).

Definition bind {A B} (m : M A) (k : A -> M B) : M B :=
  match m with
  | (l, Ok a) => let (l', r) := k a in (l ++ l', r)
  | (l, Raise e) => (l, Raise e)
  end.

Definition raise {A} (e : exn) : M A := ([], Raise e).

Definition lift {A} (r : result A) : M A := ([], r).

Definition logging (lvl : level) (msg : message) : M unit := ([(lvl, msg)], Ok tt).

Definition logged {A} (m : M A) : list entry := fst m.

Definition value {A} (m : M A) : result A := snd m.

Declare Scope monad_scope.
Delimit Scope monad_scope with monad.
Notation "x <- m ;; k" := (bind m (fun x => k))
  (at level 61, m at next level, right associativity) : monad_scope.
Notation "m ;;; k" := (bind m (fun _ => k))
  (at level 61, right associativity) : monad_scope.
Local Open Scope monad_scope.

(** Python's [seq[i]] for a non-negative index. *)
Definition getitem {A} (l : list A) (i : nat) : result A :=
  match nth_error l i with
  | Some x => Ok x
  | None => Raise IndexError
  end.

(** ** Rational comparisons *)

Definition Qcltb (x y : Qc) : bool :=
  match (x ?= y)%Qc with Lt => true | _ => false end.

(** ** Arrays of rank 3 *)

Record ndarray (A : Type) : Type := mkarray { shape : shape3; data : list A }.

Definition size (s : shape3) : nat := let '(nx, ny, nz) := s in nx * ny * nz.

(** The buffer holds one value per index.  Every array numpy builds is
    well formed; the record alone does not say so. *)
Definition well_formed {A} (a : ndarray A) : Prop :=
  length (data a) = size (shape a).

(** All indices of a shape in row-major order (first axis slowest). *)
Definition all_indices (s : shape3) : list (nat * nat * nat) :=
  let '(nx, ny, nz) := s in
  flat_map (fun i =>
    flat_map (fun j => map (fun k => (i, j, k)) (seq 0 nz)) (seq 0 ny))
    (seq 0 nx).

(** Offset of index [(i,j,k)] in the flat buffer of an array of shape [s]. *)
Definition flat_index (s : shape3) (idx : nat * nat * nat) : nat :=
  let '(_, ny, nz) := s in
  let '(i, j, k) := idx in
  (i * ny + j) * nz + k.

Definition in_range (s : shape3) (idx : nat * nat * nat) : Prop :=
  let '(nx, ny, nz) := s in
  let '(i, j, k) := idx in
  i < nx /\ j < ny /\ k < nz.

(** [a[i,j,k]], with [d] standing for a read outside the buffer. *)
Definition item {A} (d : A) (a : ndarray A) (idx : nat * nat * nat) : A :=
  nth (flat_index (shape a) idx) (data a) d.

(** numpy's broadcasting rule for one axis: the lengths agree, or one of
    them is 1 and is stretched to the other. *)
Definition broadcast_dim (m n : nat) : option nat :=
  if m =? n then Some m
  else if m =? 1 then Some n
  else if n =? 1 then Some m
  else None.

Definition broadcast_shape (s t : shape3) : option shape3 :=
  let '(sx, sy, sz) := s in
  let '(tx, ty, tz) := t in
  match broadcast_dim sx tx, broadcast_dim sy ty, broadcast_dim sz tz with
  | Some x, Some y, Some z => Some (x, y, z)
  | _, _, _ => None
  end.

(** An axis of length 1 is read at position 0 whatever the index. *)
Definition stretch (m i : nat) : nat := if m =? 1 then 0 else i.

Definition stretch_index (s : shape3) (idx : nat * nat * nat) : nat * nat * nat :=
  let '(nx, ny, nz) := s in
  let '(i, j, k) := idx in
  (stretch nx i, stretch ny j, stretch nz k).

(** The buffer of [a] viewed at the broadcast shape [s]. *)
Definition broadcast_to {A} (s : shape3) (a : ndarray A) : list A :=
  match data a with
  | [] => []
  | d :: _ => map (fun idx => item d a (stretch_index (shape a) idx)) (all_indices s)
  end.

Definition map2 {A B C} (f : A -> B -> C) (l1 : list A) (l2 : list B) : list C :=
  map (fun p => f (fst p) (snd p)) (combine l1 l2).

(** A binary elementwise operation on two arrays. *)
Definition broadcast2 {A B C} (f : A -> B -> C) (a : ndarray A) (b : ndarray B)
  : result (ndarray C) :=
  match broadcast_shape (shape a) (shape b) with
  | Some s => Ok (mkarray s (map2 f (broadcast_to s a) (broadcast_to s b)))
  | None => Raise ValueError
  end.

(** An elementwise operation between an array and scalars. *)
Definition amap {A B} (f : A -> B) (a : ndarray A) : ndarray B :=
  mkarray (shape a) (map f (data a)).

(** [np.sum] of a buffer: accumulation from 0. *)
Definition np_sum (l : list Qc) : Qc := fold_left Qcplus l 0%Qc.

(** [np.where(cond, x, y)] for an array [x] and a scalar [y]. *)
Definition np_where {A} (cond : ndarray bool) (x : ndarray A) (y : A)
  : result (ndarray A) :=
  broadcast2 (fun (c : bool) v => if c then v else y) cond x.

Definition np_zeros (n : nat) : list Qc := repeat 0%Qc n.

(** ** compute_density_difference *)

Definition compute_density_difference (ground_density excited_density : ndarray Qc)
  : M (ndarray Qc * ndarray Qc) :=
  delta_rho <- lift (broadcast2 Qcminus excited_density ground_density) ;;
  delta_rho_plus <-
    lift (np_where (amap (fun d => Qcltb 0 d) delta_rho) delta_rho 0%Qc) ;;
  delta_rho_minus <-
    lift (np_where (amap (fun d => Qcltb d 0) delta_rho) delta_rho 0%Qc) ;;
  logging INFO Computed_density_differences ;;;
  logging DEBUG (Delta_rho_positive_sum (np_sum (data delta_rho_plus))) ;;;
  logging DEBUG (Delta_rho_negative_sum (np_sum (data delta_rho_minus))) ;;;
  ret (delta_rho_plus, delta_rho_minus).

(** ** calculate_centroid *)

Definition Z2Qc (n : Z) : Qc := Q2Qc (inject_Z n).

(** The component of an index along an axis. *)
Definition component (axis : nat) (idx : nat * nat * nat) : nat :=
  let '(i, j, k) := idx in
  match axis with
  | 0 => i
  | 1 => j
  | _ => k
  end.

(** A dimension handed to numpy must not be negative. *)
Definition dimension (n : Z) : result nat :=
  if (n <? 0)%Z then Raise ValueError else Ok (Z.to_nat n).

Definition shape_of (grid_size : Z * Z * Z) : M shape3 :=
  let '(nx, ny, nz) := grid_size in
  x <- lift (dimension nx) ;;
  y <- lift (dimension ny) ;;
  z <- lift (dimension nz) ;;
  ret (x, y, z).

(** [np.indices(grid_size)]: one integer array per axis, holding at every
    grid point that point's index along the axis. *)
Definition np_indices (grid_size : Z * Z * Z) : M (list (ndarray Z)) :=
  s <- shape_of grid_size ;;
  ret (map (fun axis =>
              mkarray s (map (fun idx => Z.of_nat (component axis idx)) (all_indices s)))
           [0; 1; 2]).

(** Division in exact arithmetic. *)
Definition divide (x y : Qc) : result Qc :=
  if Qc_eq_bool y 0%Qc then Raise DivideByZero else Ok (x / y)%Qc.

(** The tasks of one executor block: submitted for 0, 1 and 2, their
    results taken in that order, so the first failing task decides the
    exception. *)
Fixpoint for_each {A B} (task : A -> M B) (l : list A) : M (list B) :=
  match l with
  | [] => ret []
  | x :: l' =>
      y <- task x ;;
      ys <- for_each task l' ;;
      ret (y :: ys)
  end.

Definition calculate_centroid (density : ndarray Qc) (origin : list Qc)
    (grid_size : Z * Z * Z) (grid_spacing : list (list Qc)) : M (list Qc) :=
  let total_density := np_sum (data density) in
  if Qc_eq_bool total_density 0%Qc then
    logging WARNING Total_density_is_zero ;;;
    ret (np_zeros 3)
  else
    grid_indices <- np_indices grid_size ;;
    grid_positions <-
      for_each (fun idx =>
        o <- lift (getitem origin idx) ;;
        gi <- lift (getitem grid_indices idx) ;;
        row <- lift (getitem grid_spacing idx) ;;
        sp <- lift (getitem row idx) ;;
        ret (amap (fun x => o + x)%Qc (amap (fun n => Z2Qc n * sp)%Qc gi)))
        [0; 1; 2] ;;
    centroid <-
      for_each (fun idx =>
        gp <- lift (getitem grid_positions idx) ;;
        weighted <- lift (broadcast2 Qcmult gp density) ;;
        lift (divide (np_sum (data weighted)) total_density))
        [0; 1; 2] ;;
    logging DEBUG (Calculated_centroid centroid) ;;;
    ret centroid.

(** ** compute_dct_and_qct *)

(** [np.linalg.norm] of a vector: the square root of the sum of squares. *)
Definition np_linalg_norm (v : list Qc) : R :=
  sqrt (Q2R (np_sum (map (fun x => x * x)%Qc v))).

(** Difference of two vectors of the same length. *)
Definition vsub (u v : list Qc) : list Qc := map2 Qcminus u v.

Definition compute_dct_and_qct (delta_rho_plus delta_rho_minus : ndarray Qc)
    (origin : list Qc) (grid_size : Z * Z * Z) (grid_spacing : list (list Qc))
  : M (R * Qc * list Qc * list Qc) :=
  centroid_plus <- calculate_centroid delta_rho_plus origin grid_size grid_spacing ;;
  centroid_minus <- calculate_centroid delta_rho_minus origin grid_size grid_spacing ;;
  let dct := np_linalg_norm (vsub centroid_plus centroid_minus) in
  let qct := np_sum (data delta_rho_plus) in
  logging INFO Computed_DCT_and_qCT ;;;
  logging DEBUG (DCT_value dct) ;;;
  logging DEBUG (QCT_value qct) ;;;
  logging DEBUG (Centroid_plus_value centroid_plus) ;;;
  logging DEBUG (Centroid_minus_value centroid_minus) ;;;
  ret (dct, qct, centroid_plus, centroid_minus).

(** Lines 209 to 212 of [main]: the differencing followed by the metrics. *)
Definition pipeline (ground_density excited_density : ndarray Qc)
    (origin : list Qc) (grid_size : Z * Z * Z) (grid_spacing : list (list Qc))
  : M (R * Qc * list Qc * list Qc) :=
  deltas <- compute_density_difference ground_density excited_density ;;
  compute_dct_and_qct (fst deltas) (snd deltas) origin grid_size grid_spacing.

(** ** read_cube_file *)

(** ASCII whitespace as [str.split()] sees it. *)
Definition is_space (c : ascii) : bool :=
  let n := nat_of_ascii c in
  ((9 <=? n) && (n <=? 13)) || ((28 <=? n) && (n <=? 32)).

Fixpoint split_from (s : string) (token : string) : list string :=
  match s with
  | EmptyString => match token with EmptyString => [] | _ => [token] end
  | String c s' =>
      if is_space c then
        match token with
        | EmptyString => split_from s' EmptyString
        | _ => token :: split_from s' EmptyString
        end
      else split_from s' (token ++ String c EmptyString)
  end.

(** [line.split()] *)
Definition split (line : string) : list string := split_from line EmptyString.

(** Python's [seq[start:]], where a negative start counts from the end. *)
Definition slice_from {A} (start : Z) (l : list A) : list A :=
  if (0 <=? start)%Z then skipn (Z.to_nat start) l
  else skipn (Z.to_nat (Z.of_nat (length l) + start)) l.

Definition product (grid_size : Z * Z * Z) : Z :=
  let '(nx, ny, nz) := grid_size in (nx * ny * nz)%Z.

(** [ndarray.reshape] of a flat buffer of [n] values when one entry of the
    requested shape is negative (numpy's "unknown dimension", written -1):
    the entry is inferred from the product [known] of the other two. *)
Definition infer_dimension (n known : Z) : result nat :=
  if (known =? 0)%Z || negb (n mod known =? 0)%Z then Raise ValueError
  else Ok (Z.to_nat (n / known)).

(** The largest size numpy can hold (a signed 64-bit integer), and the
    largest unsigned 64-bit integer. *)
Definition int64_max : Z := 9223372036854775807.

Definition uint64_max : Z := 18446744073709551615.

Definition fits_int64 (n : Z) : bool :=
  ((- int64_max - 1 <=? n) && (n <=? int64_max))%Z.

(** The element types [np.array] can give a list of Python integers. *)
Inductive dtype : Type := int64 | uint64 | float64 | object.

(** The type found for one Python integer: signed when it fits, unsigned
    when only that fits, a Python object otherwise. *)
Definition dtype_of_int (n : Z) : dtype :=
  if fits_int64 n then int64
  else if ((0 <=? n) && (n <=? uint64_max))%Z then uint64
  else object.

(** numpy's common type of two of these: a signed and an unsigned 64-bit
    integer have no common integer type and meet in [float64]. *)
Definition promote_types (a b : dtype) : dtype :=
  match a, b with
  | object, _ | _, object => object
  | float64, _ | _, float64 => float64
  | int64, int64 => int64
  | uint64, uint64 => uint64
  | _, _ => float64
  end.

(** The element type of [np.array(grid_size)]. *)
Definition np_array_dtype (grid_size : Z * Z * Z) : dtype :=
  let '(nx, ny, nz) := grid_size in
  promote_types (promote_types (dtype_of_int nx) (dtype_of_int ny))
                (dtype_of_int nz).

(** numpy multiplies sizes with a check for overflow. *)
Definition mul_sizes (a b : Z) : option Z :=
  if (a * b <=? int64_max)%Z then Some (a * b)%Z else None.

(** The product of the requested sizes that are not negative, taken in
    order from 1. *)
Definition known_size (dims : list Z) : option Z :=
  fold_left (fun acc d => match acc with
                          | Some a => mul_sizes a d
                          | None => None
                          end) dims (Some 1%Z).

(** The array object of a shape over an existing buffer of 8-byte values:
    the byte count of the shape, its zero entries left out, must not
    overflow. *)
Definition new_array {A} (dims : Z * Z * Z) (values : list A)
  : result (ndarray A) :=
  let '(x, y, z) := dims in
  let nonzero d := if (d =? 0)%Z then 1%Z else d in
  if (8 * nonzero x * nonzero y * nonzero z <=? int64_max)%Z
  then Ok (mkarray (Z.to_nat x, Z.to_nat y, Z.to_nat z) values)
  else Raise ValueError.

(** [np.array(values).reshape(grid_size)] for [grid_size = np.array(...)]
    of the three parsed integers.  The entries of a shape are converted
    to sizes one by one: a floating entry is not an integer
    ([TypeError]), and an unsigned or Python integer in such an array is
    too large for a size ([ValueError]).  The buffer is kept as it is;
    the shape must account for every value. *)
Definition reshape {A} (values : list A) (grid_size : Z * Z * Z)
  : result (ndarray A) :=
  let '(nx, ny, nz) := grid_size in
  let n := Z.of_nat (length values) in
  match np_array_dtype grid_size with
  | float64 => Raise TypeError
  | uint64 | object => Raise ValueError
  | int64 =>
    match (nx <? 0)%Z, (ny <? 0)%Z, (nz <? 0)%Z with
    | false, false, false =>
        match known_size [nx; ny; nz] with
        | Some known =>
            if (n =? known)%Z then new_array (nx, ny, nz) values
            else Raise ValueError
        | None => Raise ValueError
        end
    | true, false, false =>
        match known_size [ny; nz] with
        | Some known =>
            match infer_dimension n known with
            | Ok x => new_array (Z.of_nat x, ny, nz) values
            | Raise e => Raise e
            end
        | None => Raise ValueError
        end
    | false, true, false =>
        match known_size [nx; nz] with
        | Some known =>
            match infer_dimension n known with
            | Ok y => new_array (nx, Z.of_nat y, nz) values
            | Raise e => Raise e
            end
        | None => Raise ValueError
        end
    | false, false, true =>
        match known_size [nx; ny] with
        | Some known =>
            match infer_dimension n known with
            | Ok z => new_array (nx, ny, Z.of_nat z) values
            | Raise e => Raise e
            end
        | None => Raise ValueError
        end
    | _, _, _ => Raise ValueError
    end
  end.

(** [np.array(rows)] of a list of rows: the rows must have one length
    (NumPy 1.24 and later reject a ragged list with [ValueError]). *)
Definition np_array2 {A} (rows : list (list A)) : result (list (list A)) :=
  match rows with
  | [] => Ok rows
  | r :: rs =>
      if forallb (fun r' => length r' =? length r) rs then Ok rows
      else Raise ValueError
  end.

(** [try: body except Exception as e: handler(e)] *)
Definition try_except {A} (body : M A) (handler : exn -> M A) : M A :=
  match body with
  | (l, Raise e) => let (l', r) := handler e in (l ++ l', r)
  | done => done
  end.

(** What a run of [main] ends in: the two reported aborts, or the four
    results it prints. *)
Inductive outcome : Type :=
| Read_failed (e : exn)
| Grid_size_mismatch
| Results (dct : R) (qct : Qc) (centroid_plus centroid_minus : list Qc).

Definition shape_eqb (s t : shape3) : bool :=
  let '(sx, sy, sz) := s in
  let '(tx, ty, tz) := t in
  (sx =? tx) && (sy =? ty) && (sz =? tz).

Section Script.

(** Python's [int(token)] and [float(token)]; [None] is a [ValueError]. *)
Variable py_int : string -> option Z.
Variable py_float : string -> option Qc.

(** The files that exist, each as the list of its lines. *)
Variable files : string -> option (list string).

Definition int (token : string) : M Z :=
  match py_int token with Some n => ret n | None => raise ValueError end.

Definition float (token : string) : M Qc :=
  match py_float token with Some x => ret x | None => raise ValueError end.

(** Line 3: the number of atoms and the origin. *)
Definition read_atom_count_line (lines : list string) : M (Z * list Qc) :=
  line <- lift (getitem lines 2) ;;
  let atom_count_line := split line in
  token <- lift (getitem atom_count_line 0) ;;
  num_atoms <- int token ;;
  origin <- for_each float (tl atom_count_line) ;;
  logging DEBUG (Number_of_atoms num_atoms) ;;;
  logging DEBUG (Origin_of_the_grid origin) ;;;
  ret (num_atoms, origin).

(** One turn of the loop over the three axis lines. *)
Definition read_grid_line (lines : list string) (i : nat) : M (Z * list Qc) :=
  line <- lift (getitem lines (3 + i)) ;;
  let grid_line := split line in
  token <- lift (getitem grid_line 0) ;;
  n <- int token ;;
  spacing <- for_each float (tl grid_line) ;;
  logging DEBUG (Grid_size_along_axis i n spacing) ;;;
  ret (n, spacing).

(** Everything before the density values. *)
Definition read_header (lines : list string)
  : M (Z * list Qc * (Z * Z * Z) * list (list Qc)) :=
  first <- read_atom_count_line lines ;;
  x <- read_grid_line lines 0 ;;
  y <- read_grid_line lines 1 ;;
  z <- read_grid_line lines 2 ;;
  let grid_size := (fst x, fst y, fst z) in
  grid_spacing <- lift (np_array2 [snd x; snd y; snd z]) ;;
  ret (fst first, snd first, grid_size, grid_spacing).

(** The density values of the lines from [6 + num_atoms] on, in file order. *)
Definition read_values (lines : list string) (num_atoms : Z) : M (list Qc) :=
  let data_start := (6 + num_atoms)%Z in
  per_line <- for_each (fun line => for_each float (split line))
                       (slice_from data_start lines) ;;
  ret (concat per_line).

Definition read_cube_file (filename : string)
  : M (list Qc * (Z * Z * Z) * list (list Qc) * ndarray Qc) :=
  logging INFO (Reading_cube_file filename) ;;;
  lines <- match files filename with
           | Some lines => ret lines
           | None =>
               logging ERROR (Cube_file_not_found filename) ;;;
               raise FileNotFoundError
           end ;;
  header <- read_header lines ;;
  let '(num_atoms, origin, grid_size, grid_spacing) := header in
  values <- read_values lines num_atoms ;;
  density_data <- lift (reshape values grid_size) ;;
  logging INFO (Successfully_read filename) ;;;
  logging DEBUG (Density_data_shape (shape density_data)) ;;;
  ret (origin, grid_size, grid_spacing, density_data).

(** What the reader asks of one of the four header lines: a first
    token that [int()] accepts, followed by tokens that [float()]
    accepts, however many. *)
Definition header_line_ok (line : string) : bool :=
  match split line with
  | [] => false
  | token :: rest =>
      match py_int token with
      | Some _ => forallb (fun t => match py_float t with
                                    | Some _ => true
                                    | None => false
                                    end) rest
      | None => false
      end
  end.

(** ** main

    The command line supplies the two file names.  The [print] calls and
    the appending of the results to the output file repeat the values of
    the outcome and are left to the caller. *)
Definition main (ground_state_file excited_state_file : string) : M outcome :=
  logging INFO Starting_calculation ;;;
  loaded <-
    try_except
      (ground <- read_cube_file ground_state_file ;;
       excited <- read_cube_file excited_state_file ;;
       ret (inr (ground, snd excited)))
      (fun e =>
         logging ERROR (Error_while_reading e) ;;;
         ret (inl e)) ;;
  match loaded with
  | inl e => ret (Read_failed e)
  | inr (origin, grid_size, grid_spacing, ground_density, excited_density) =>
      if negb (shape_eqb (shape ground_density) (shape excited_density)) then
        logging ERROR Mismatch_in_grid_size ;;;
        ret Grid_size_mismatch
      else
        metrics <- pipeline ground_density excited_density
                            origin grid_size grid_spacing ;;
        let '(dct, qct, centroid_plus, centroid_minus) := metrics in
        logging INFO (DCT_value dct) ;;;
        logging INFO (QCT_value qct) ;;;
        logging INFO (Centroid_plus_value centroid_plus) ;;;
        logging INFO (Centroid_minus_value centroid_minus) ;;;
        ret (Results dct qct centroid_plus centroid_minus)
  end.

End Script.

(** ** Plain decimal numerals

    The fragment of [int()] and [float()] the examples below need: an
    optional sign, decimal digits and, for [float()], an optional
    fractional part.  The theorems about the reader hold for every choice
    of the two parsers. *)

Definition digit_value (c : ascii) : option Z :=
  let n := nat_of_ascii c in
  if (48 <=? n) && (n <=? 57) then Some (Z.of_nat (n - 48)) else None.

Fixpoint digits_value (s : string) (acc : Z) : option Z :=
  match s with
  | EmptyString => Some acc
  | String c s' =>
      match digit_value c with
      | Some d => digits_value s' (10 * acc + d)%Z
      | None => None
      end
  end.

Definition unsigned_int (s : string) : option Z :=
  match s with
  | EmptyString => None
  | _ => digits_value s 0%Z
  end.

Definition signed {A} (neg : A -> A) (parse : string -> option A) (s : string)
  : option A :=
  match s with
  | String "-"%char s' => option_map neg (parse s')
  | String "+"%char s' => parse s'
  | _ => parse s
  end.

Definition decimal_int : string -> option Z := signed Z.opp unsigned_int.

(** The text before the first dot and, when there is a dot, the text after it. *)
Fixpoint split_dot (s : string) : string * option string :=
  match s with
  | EmptyString => (EmptyString, None)
  | String "."%char s' => (EmptyString, Some s')
  | String c s' => let (a, b) := split_dot s' in (String c a, b)
  end.

Definition unsigned_float (s : string) : option Qc :=
  match split_dot s with
  | (a, None) => option_map Z2Qc (unsigned_int a)
  | (a, Some b) =>
      match unsigned_int a, unsigned_int b with
      | Some x, Some y =>
          Some (Z2Qc x + Z2Qc y / Z2Qc (10 ^ Z.of_nat (String.length b)))%Qc
      | _, _ => None
      end
  end.

Definition decimal_float : string -> option Qc := signed Qcopp unsigned_float.

(** ** The specification's vocabulary *)

Definition Qcmax (x y : Qc) : Qc := if Qclt_le_dec x y then y else x.

Definition Qcmin (x y : Qc) : Qc := if Qclt_le_dec x y then x else y.

Definition Qcabs (x : Qc) : Qc := if Qclt_le_dec x 0%Qc then (- x)%Qc else x.

(** The sum of [f i] for [i < n]. *)
Fixpoint sum_below (n : nat) (f : nat -> Qc) : Qc :=
  match n with
  | 0 => 0%Qc
  | S n' => (sum_below n' f + f n')%Qc
  end.

(** The sum of [f (i,j,k)] over every grid index of a shape. *)
Definition sum_over_grid (s : shape3) (f : nat * nat * nat -> Qc) : Qc :=
  let '(nx, ny, nz) := s in
  sum_below nx (fun i => sum_below ny (fun j => sum_below nz (fun k => f (i, j, k)))).

(** The position along an axis of a grid index: the origin's component
    plus the index times the diagonal entry of the spacing matrix. *)
Definition position (o sp : Qc) (axis : nat) (idx : nat * nat * nat) : Qc :=
  (o + Z2Qc (Z.of_nat (component axis idx)) * sp)%Qc.

(** The density-weighted mean position along an axis,
    [sum(position * density) / sum(density)]. *)
Definition weighted_mean (density : ndarray Qc) (o sp : Qc) (axis : nat) : Qc :=
  (sum_over_grid (shape density)
     (fun idx => position o sp axis idx * item 0%Qc density idx)
   / sum_over_grid (shape density) (item 0%Qc density))%Qc.

(** The centroid of a field: the weighted mean position per component,
    and by convention the zero vector when the field has no mass. *)
Definition centroid (density : ndarray Qc) (o sp : Qc * Qc * Qc) : list Qc :=
  let '(ox, oy, oz) := o in
  let '(sx, sy, sz) := sp in
  if Qc_eq_bool (sum_over_grid (shape density) (item 0%Qc density)) 0%Qc
  then [0; 0; 0]%Qc
  else [weighted_mean density ox sx 0;
        weighted_mean density oy sy 1;
        weighted_mean density oz sz 2].

(** The diagonal of the spacing matrix, when it has one. *)
Definition diagonal (grid_spacing : list (list Qc)) : option (Qc * Qc * Qc) :=
  match grid_spacing with
  | (sx :: _) :: (_ :: sy :: _) :: (_ :: _ :: sz :: _) :: _ => Some (sx, sy, sz)
  | _ => None
  end.

Definition grid_size_of (s : shape3) : Z * Z * Z :=
  let '(nx, ny, nz) := s in (Z.of_nat nx, Z.of_nat ny, Z.of_nat nz).

(** The Euclidean norm of a 3-vector, over the reals. *)
Definition euclidean_norm (v : list Qc) : R :=
  sqrt (fold_right (fun (x : Qc) acc => Q2R x * Q2R x + acc)%R 0%R v).

(** The Euclidean distance of two vectors: the square root of the sum of
    the squared differences of their components. *)
Fixpoint squared_differences (u v : list Qc) : R :=
  match u, v with
  | x :: u', y :: v' =>
      ((Q2R x - Q2R y) * (Q2R x - Q2R y) + squared_differences u' v')%R
  | _, _ => 0%R
  end.

Definition euclidean_distance (u v : list Qc) : R :=
  sqrt (squared_differences u v).

Definition non_negative (grid_size : Z * Z * Z) : Prop :=
  let '(nx, ny, nz) := grid_size in (0 <= nx /\ 0 <= ny /\ 0 <= nz)%Z.

(** The messages of [compute_density_difference], [calculate_centroid] and
    [compute_dct_and_qct], and of the report of their results. *)
Definition pipeline_message (msg : message) : bool :=
  match msg with
  | Computed_density_differences
  | Delta_rho_positive_sum _
  | Delta_rho_negative_sum _
  | Total_density_is_zero
  | Calculated_centroid _
  | Computed_DCT_and_qCT
  | DCT_value _
  | QCT_value _
  | Centroid_plus_value _
  | Centroid_minus_value _ => true
  | _ => false
  end.

(** A computation that logs no message of the pipeline. *)
Definition no_pipeline_work {A} (m : M A) : Prop :=
  Forall (fun e : entry => pipeline_message (snd e) = false) (logged m).

(** A computation whose exceptions all satisfy [P]. *)
Definition raises_only {A} (P : exn -> Prop) (m : M A) : Prop :=
  forall e, value m = Raise e -> P e.

(** The exceptions by which the reader rejects the content of a file. *)
Definition parse_error (e : exn) : Prop := e = IndexError \/ e = ValueError.

(** With the [TypeError] of grid sizes that [np.array] makes floating. *)
Definition reader_error (e : exn) : Prop := parse_error e \/ e = TypeError.

(** ** Small inputs for the examples *)

(** A grid with a single point. *)
Definition cell (x : Qc) : ndarray Qc := mkarray (1, 1, 1) [x].

Definition zero_origin : list Qc := [0; 0; 0]%Qc.

Definition identity_spacing : list (list Qc) :=
  [[1; 0; 0]; [0; 1; 0]; [0; 0; 1]]%Qc.

(** A 2x2x2 grid holding 1 at index (1,1,1) and 0 elsewhere, and the
    all-zero field of a shape. *)
Definition single_point : ndarray Qc :=
  mkarray (2, 2, 2) [0; 0; 0; 0; 0; 0; 0; 1]%Qc.

Definition zeros (s : shape3) : ndarray Qc := mkarray s (repeat 0%Qc (size s)).

(** A 2x2x2 grid holding -1 at index (0,0,1) and 0 elsewhere. *)
Definition negative_point : ndarray Qc :=
  mkarray (2, 2, 2) [0; - (1); 0; 0; 0; 0; 0; 0]%Qc.

(** Cube files.  Each line ends in a newline, as [readlines] yields it. *)
Definition newline : string := String (ascii_of_nat 10) EmptyString.

Definition cube_lines (header : list string) (values : list string) : list string :=
  map (fun l => (l ++ newline)%string)
      (["title"%string; "comment"%string] ++ header ++ values).

(** The two files of the specification's mismatch scenario, a 2x2x2 grid
    and a 3x3x3 grid; a file whose origin has only two components; a file
    whose first grid size is -1; a file one value short; a file that ends
    inside the header; a file whose first grid size is 2^63. *)
Definition example_files (filename : string) : option (list string) :=
  if String.eqb filename "ground.cube" then
    Some (cube_lines ["0 0.0 0.0 0.0"; "2 1.0 0.0 0.0"; "2 0.0 1.0 0.0"; "2 0.0 0.0 1.0"]
                     ["0 0 0 0"; "0 0 0 0"])%string
  else if String.eqb filename "excited.cube" then
    Some (cube_lines ["0 0.0 0.0 0.0"; "3 1.0 0.0 0.0"; "3 0.0 1.0 0.0"; "3 0.0 0.0 1.0"]
                     ["0 0 0 0 0 0 0 0 0"; "0 0 0 0 0 0 0 0 0"; "0 0 0 0 0 0 0 0 1"])%string
  else if String.eqb filename "short_origin.cube" then
    Some (cube_lines ["0 0.0 0.0"; "1 1.0 0.0 0.0"; "1 0.0 1.0 0.0"; "1 0.0 0.0 1.0"]
                     ["0.5"])%string
  else if String.eqb filename "inferred.cube" then
    Some (cube_lines ["0 0.0 0.0 0.0"; "-1 1.0 0.0 0.0"; "2 0.0 1.0 0.0"; "2 0.0 0.0 1.0"]
                     ["1 2 3 4"; "5 6 7 8"])%string
  else if String.eqb filename "truncated.cube" then
    Some (cube_lines ["0 0.0 0.0 0.0"; "2 1.0 0.0 0.0"; "2 0.0 1.0 0.0"; "2 0.0 0.0 1.0"]
                     ["1 2 3 4"; "5 6 7"])%string
  else if String.eqb filename "headless.cube" then
    Some (cube_lines ["0 0.0 0.0 0.0"; "2 1.0 0.0 0.0"] [])%string
  else if String.eqb filename "oversized.cube" then
    Some (cube_lines ["0 0.0 0.0 0.0"; "9223372036854775808 1.0 0.0 0.0";
                      "2 0.0 1.0 0.0"; "2 0.0 0.0 1.0"]
                     ["1 2 3 4"; "5 6 7 8"])%string
  else None.

(** ** Further vocabulary *)

(** Two shapes that numpy cannot broadcast: on some axis the lengths
    differ and neither is 1. *)
Definition incompatible (s t : shape3) : Prop :=
  let '(sx, sy, sz) := s in
  let '(tx, ty, tz) := t in
  (sx <> tx /\ sx <> 1 /\ tx <> 1) \/
  (sy <> ty /\ sy <> 1 /\ ty <> 1) \/
  (sz <> tz /\ sz <> 1 /\ tz <> 1).

(** A string whose last character is whitespace. *)
Fixpoint ends_in_space (s : string) : bool :=
  match s with
  | EmptyString => false
  | String c EmptyString => is_space c
  | String _ s' => ends_in_space s'
  end.

(** Every element of a list but the last satisfies [P]. *)
Fixpoint all_but_last {A} (P : A -> bool) (l : list A) : bool :=
  match l with
  | [] | [_] => true
  | x :: l' => P x && all_but_last P l'
  end.

(** Files with one atom record: a proper one, and one whose atom record
    is not a record at all. *)
Definition atom_files (filename : string) : option (list string) :=
  if String.eqb filename "atom.cube" then
    Some (cube_lines ["1 0.0 0.0 0.0"; "1 1.0 0.0 0.0"; "1 0.0 1.0 0.0"; "2 0.0 0.0 1.0"]
                     ["8 8.0 0.0 0.0 0.0"; "0.5 0.25"])%string
  else if String.eqb filename "garbled.cube" then
    Some (cube_lines ["1 0.0 0.0 0.0"; "1 1.0 0.0 0.0"; "1 0.0 1.0 0.0"; "2 0.0 0.0 1.0"]
                     ["not an atom record"; "0.5 0.25"])%string
  else None.

(** The lines of a file with one atom record and two values on three
    lines, one of them blank. *)
Definition wrapped_lines : list string :=
  (cube_lines ["1 0.0 0.0 0.0"; "1 1.0 0.0 0.0"; "1 0.0 1.0 0.0"; "2 0.0 0.0 1.0"]
              ["8 8.0 0.0 0.0 0.0"; "0.5"; EmptyString; "  0.25"])%string.

(** Files of one grid point: two well-formed ones that differ in origin
    and spacing, and one whose origin has two components. *)
Definition one_point_files (filename : string) : option (list string) :=
  if String.eqb filename "low.cube" then
    Some (cube_lines ["0 0.0 0.0 0.0"; "1 1.0 0.0 0.0"; "1 0.0 1.0 0.0"; "1 0.0 0.0 1.0"]
                     ["0.5"])%string
  else if String.eqb filename "high.cube" then
    Some (cube_lines ["0 0.0 0.0 0.0"; "1 1.0 0.0 0.0"; "1 0.0 1.0 0.0"; "1 0.0 0.0 1.0"]
                     ["0.75"])%string
  else if String.eqb filename "high_elsewhere.cube" then
    Some (cube_lines ["0 4.0 5.0 6.0"; "1 2.0 0.0 0.0"; "1 0.0 2.0 0.0"; "1 0.0 0.0 2.0"]
                     ["0.75"])%string
  else if String.eqb filename "low_short_origin.cube" then
    Some (cube_lines ["0 0.0 0.0"; "1 1.0 0.0 0.0"; "1 0.0 1.0 0.0"; "1 0.0 0.0 1.0"]
                     ["0.5"])%string
  else None.

(** * Verification *)

(** ** The monad *)

Lemma value_bind_Ok A B (m : M A) (k : A -> M B) a :
  value m = Ok a -> value (bind m k) = value (k a).
Proof.
  destruct m as [l r]; simpl; intros ->; simpl.
  now destruct (k a).
Qed.

Lemma value_bind_Raise A B (m : M A) (k : A -> M B) e :
  value m = Raise e -> value (bind m k) = Raise e.
Proof.
  destruct m as [l r]; simpl; now intros ->.
Qed.

Lemma logged_bind_Ok A B (m : M A) (k : A -> M B) a :
  value m = Ok a -> logged (bind m k) = logged m ++ logged (k a).
Proof.
  destruct m as [l r]; simpl; intros ->; simpl.
  now destruct (k a).
Qed.

Lemma logged_bind_Raise A B (m : M A) (k : A -> M B) e :
  value m = Raise e -> logged (bind m k) = logged m.
Proof.
  destruct m as [l r]; simpl; now intros ->.
Qed.

Lemma bind_lift_Ok A B (a : A) (k : A -> M B) : bind (lift (Ok a)) k = k a.
Proof. unfold bind, lift; simpl. now destruct (k a). Qed.

Lemma bind_ret A B (a : A) (k : A -> M B) : bind (ret a) k = k a.
Proof. apply bind_lift_Ok. Qed.

(** ** Sums *)

Local Open Scope Qc_scope.

Lemma fold_left_Qcplus (l : list Qc) (a : Qc) :
  fold_left Qcplus l a = a + fold_left Qcplus l 0.
Proof.
  revert a; induction l as [|x l IH]; intros a; simpl.
  - ring.
  - rewrite (IH (a + x)), (IH (0 + x)). ring.
Qed.

Lemma np_sum_nil : np_sum [] = 0.
Proof. reflexivity. Qed.

Lemma np_sum_cons x l : np_sum (x :: l) = x + np_sum l.
Proof.
  unfold np_sum; simpl. rewrite fold_left_Qcplus. ring.
Qed.

Lemma np_sum_app l1 l2 : np_sum (l1 ++ l2) = np_sum l1 + np_sum l2.
Proof.
  induction l1 as [|x l1 IH]; simpl.
  - rewrite np_sum_nil. ring.
  - rewrite !np_sum_cons, IH. ring.
Qed.


Lemma Qcle_0_plus x y : 0 <= x -> 0 <= y -> 0 <= x + y.
Proof.
  intros Hx Hy. replace 0 with (0 + 0) by ring.
  now apply Qcplus_le_compat.
Qed.

Lemma np_sum_nonneg l : Forall (fun x => 0 <= x) l -> 0 <= np_sum l.
Proof.
  induction 1 as [|x l Hx _ IH].
  - rewrite np_sum_nil. apply Qcle_refl.
  - rewrite np_sum_cons. now apply Qcle_0_plus.
Qed.

Lemma np_sum_zeros n : np_sum (repeat 0 n) = 0.
Proof.
  induction n as [|n IH]; simpl.
  - reflexivity.
  - rewrite np_sum_cons, IH. ring.
Qed.

Lemma Qcltb_lt x y : Qcltb x y = true <-> x < y.
Proof.
  unfold Qcltb. rewrite Qclt_alt.
  destruct (x ?= y); split; congruence.
Qed.

Lemma Qcltb_ge x y : Qcltb x y = false <-> y <= x.
Proof.
  split; intros H.
  - apply Qcnot_lt_le. intros Hlt. apply Qcltb_lt in Hlt. congruence.
  - destruct (Qcltb x y) eqn:E; [|reflexivity].
    apply Qcltb_lt in E. now apply Qcle_not_lt in H.
Qed.

Lemma Qc_eq_bool_true x y : Qc_eq_bool x y = true <-> x = y.
Proof.
  split.
  - apply Qc_eq_bool_correct.
  - intros ->. unfold Qc_eq_bool. now destruct (Qc_eq_dec y y).
Qed.

Lemma Qc_eq_bool_false x y : Qc_eq_bool x y = false <-> x <> y.
Proof.
  split.
  - intros H E. apply Qc_eq_bool_true in E. congruence.
  - intros H. destruct (Qc_eq_bool x y) eqn:E; [|reflexivity].
    apply Qc_eq_bool_true in E. contradiction.
Qed.

Local Close Scope Qc_scope.

(** ** Indices and broadcasting *)

Lemma map_flat_map A B C (f : B -> C) (g : A -> list B) l :
  map f (flat_map g l) = flat_map (fun x => map f (g x)) l.
Proof.
  induction l as [|x l IH]; simpl.
  - reflexivity.
  - now rewrite map_app, IH.
Qed.

Lemma map_add_seq a n : map (fun k => a + k) (seq 0 n) = seq a n.
Proof.
  induction n as [|n IH].
  - reflexivity.
  - rewrite !seq_S, map_app, IH. reflexivity.
Qed.

Lemma flat_map_seq_blocks a n m :
  flat_map (fun j => seq ((a + j) * n) n) (seq 0 m) = seq (a * n) (m * n).
Proof.
  induction m as [|m IH].
  - reflexivity.
  - rewrite seq_S, flat_map_app, IH. simpl flat_map. rewrite app_nil_r.
    replace (S m * n) with (m * n + n) by lia.
    rewrite seq_app. do 2 f_equal. lia.
Qed.

Lemma map_flat_index_all_indices s :
  map (flat_index s) (all_indices s) = seq 0 (size s).
Proof.
  destruct s as [[nx ny] nz]. unfold all_indices, size.
  rewrite map_flat_map.
  rewrite (flat_map_ext _ (fun i => seq ((0 + i) * (ny * nz)) (ny * nz))).
  - rewrite flat_map_seq_blocks. f_equal. lia.
  - intros i. rewrite map_flat_map.
    rewrite (flat_map_ext _ (fun j => seq ((i * ny + j) * nz) nz)).
    + rewrite flat_map_seq_blocks. f_equal; lia.
    + intros j. rewrite map_map. simpl. apply map_add_seq.
Qed.

Lemma all_indices_in_range s idx : In idx (all_indices s) <-> in_range s idx.
Proof.
  destruct s as [[nx ny] nz], idx as [[i j] k]. unfold all_indices, in_range.
  rewrite in_flat_map. split.
  - intros (i' & Hi & H). apply in_flat_map in H as (j' & Hj & H).
    apply in_map_iff in H as (k' & E & Hk). inversion E; subst.
    apply in_seq in Hi, Hj, Hk. lia.
  - intros (Hi & Hj & Hk). exists i. split; [apply in_seq; lia|].
    apply in_flat_map. exists j. split; [apply in_seq; lia|].
    apply in_map_iff. exists k. split; [reflexivity|apply in_seq; lia].
Qed.

Lemma length_all_indices s : length (all_indices s) = size s.
Proof.
  rewrite <- (length_map (flat_index s)), map_flat_index_all_indices.
  apply length_seq.
Qed.

Lemma map_nth_seq A (l : list A) d :
  map (fun n => nth n l d) (seq 0 (length l)) = l.
Proof.
  induction l as [|x l IH]; simpl.
  - reflexivity.
  - f_equal. rewrite <- seq_shift, map_map. exact IH.
Qed.

Lemma flat_index_lt s idx : in_range s idx -> flat_index s idx < size s.
Proof.
  destruct s as [[nx ny] nz], idx as [[i j] k]. simpl. intros (Hi & Hj & Hk).
  assert (i * ny + j + 1 <= nx * ny) by nia.
  nia.
Qed.

Lemma stretch_lt n i : i < n -> stretch n i = i.
Proof.
  unfold stretch. destruct (Nat.eqb_spec n 1); lia.
Qed.

Lemma stretch_index_in_range s idx : in_range s idx -> stretch_index s idx = idx.
Proof.
  destruct s as [[nx ny] nz], idx as [[i j] k]. simpl. intros (Hi & Hj & Hk).
  now rewrite !stretch_lt.
Qed.

(** The items of a well-formed array, read in row-major order, are its buffer. *)
Lemma map_item_all_indices A (a : ndarray A) d :
  well_formed a -> map (item d a) (all_indices (shape a)) = data a.
Proof.
  intros Hwf. unfold item.
  rewrite <- (map_map (flat_index (shape a)) (fun n => nth n (data a) d)).
  rewrite map_flat_index_all_indices, <- Hwf. apply map_nth_seq.
Qed.

Lemma broadcast_to_same A (a : ndarray A) :
  well_formed a -> broadcast_to (shape a) a = data a.
Proof.
  intros Hwf. unfold broadcast_to. destruct (data a) as [|d l] eqn:E.
  - reflexivity.
  - rewrite <- E. transitivity (map (item d a) (all_indices (shape a))).
    2: now apply map_item_all_indices.
    apply map_ext_in. intros idx Hin.
    apply all_indices_in_range in Hin. now rewrite stretch_index_in_range.
Qed.

Lemma broadcast_dim_same n : broadcast_dim n n = Some n.
Proof. unfold broadcast_dim. now rewrite Nat.eqb_refl. Qed.

Lemma broadcast_shape_same s : broadcast_shape s s = Some s.
Proof.
  destruct s as [[nx ny] nz]. unfold broadcast_shape.
  now rewrite !broadcast_dim_same.
Qed.

Lemma broadcast2_same_shape A B C (f : A -> B -> C) a b :
  well_formed a -> well_formed b -> shape a = shape b ->
  broadcast2 f a b = Ok (mkarray (shape a) (map2 f (data a) (data b))).
Proof.
  intros Ha Hb E. unfold broadcast2. rewrite <- E, broadcast_shape_same.
  rewrite broadcast_to_same by assumption.
  rewrite E, broadcast_to_same by assumption.
  now rewrite <- E.
Qed.

Lemma length_map2 A B C (f : A -> B -> C) l1 l2 :
  length l1 = length l2 -> length (map2 f l1 l2) = length l1.
Proof.
  intros E. unfold map2. rewrite length_map, length_combine. lia.
Qed.

Lemma map2_map_l A A' B C (f : A' -> B -> C) (g : A -> A') l1 l2 :
  map2 f (map g l1) l2 = map2 (fun x y => f (g x) y) l1 l2.
Proof.
  unfold map2. revert l2; induction l1 as [|x l1 IH]; intros [|y l2]; simpl;
    try reflexivity.
  f_equal. apply IH.
Qed.

Lemma map2_same A C (f : A -> A -> C) l : map2 f l l = map (fun x => f x x) l.
Proof.
  unfold map2. induction l as [|x l IH]; simpl; [reflexivity|now f_equal].
Qed.

Lemma nth_map2 A B C (f : A -> B -> C) l1 l2 n d1 d2 d :
  n < length l1 -> length l1 = length l2 ->
  nth n (map2 f l1 l2) d = f (nth n l1 d1) (nth n l2 d2).
Proof.
  revert l2 n; induction l1 as [|x l1 IH]; intros [|y l2] n Hn E; simpl in *;
    try lia.
  destruct n as [|n]; [reflexivity|]. apply IH; lia.
Qed.

(** ** The positive and the negative part *)

Local Open Scope Qc_scope.

Lemma positive_part_max d : (if Qcltb 0 d then d else 0) = Qcmax d 0.
Proof.
  unfold Qcmax. destruct (Qcltb 0 d) eqn:E, (Qclt_le_dec d 0) as [H|H];
    try reflexivity.
  - apply Qcltb_lt in E. exfalso. exact (Qclt_not_le _ _ E (Qclt_le_weak _ _ H)).
  - apply Qcltb_ge in E. now apply Qcle_antisym.
Qed.

Lemma negative_part_min d : (if Qcltb d 0 then d else 0) = Qcmin d 0.
Proof.
  unfold Qcmin. destruct (Qcltb d 0) eqn:E, (Qclt_le_dec d 0) as [H|H];
    try reflexivity.
  - apply Qcltb_lt in E. exfalso. exact (Qclt_not_le _ _ E H).
  - apply Qcltb_ge in E. exfalso. exact (Qclt_not_le _ _ H E).
Qed.

Lemma parts_cases d :
  (Qcmax d 0 = d /\ Qcmin d 0 = 0 /\ 0 <= d) \/
  (Qcmax d 0 = 0 /\ Qcmin d 0 = d /\ d < 0).
Proof.
  unfold Qcmax, Qcmin. destruct (Qclt_le_dec d 0) as [H|H]; auto.
Qed.

Lemma parts_sum d : Qcmax d 0 + Qcmin d 0 = d.
Proof. destruct (parts_cases d) as [(-> & -> & _)|(-> & -> & _)]; ring. Qed.

Lemma parts_product d : Qcmax d 0 * Qcmin d 0 = 0.
Proof. destruct (parts_cases d) as [(-> & -> & _)|(-> & -> & _)]; ring. Qed.

Lemma parts_difference d : Qcmax d 0 - Qcmin d 0 = Qcabs d.
Proof.
  unfold Qcabs.
  destruct (parts_cases d) as [(-> & -> & H)|(-> & -> & H)];
    destruct (Qclt_le_dec d 0) as [H'|H']; try ring.
  - exfalso. exact (Qclt_not_le _ _ H' H).
  - exfalso. exact (Qclt_not_le _ _ H H').
Qed.

Lemma Qcmax_0_nonneg d : 0 <= Qcmax d 0.
Proof.
  destruct (parts_cases d) as [(-> & _ & H)|(-> & _ & _)];
    [assumption|apply Qcle_refl].
Qed.

Lemma Qcmin_0_nonpos d : Qcmin d 0 <= 0.
Proof.
  destruct (parts_cases d) as [(_ & -> & _)|(_ & -> & H)];
    [apply Qcle_refl|now apply Qclt_le_weak].
Qed.



Local Close Scope Qc_scope.

(** ** compute_density_difference on arrays of one shape *)

Lemma nth_map_lt A B (f : A -> B) l n d d' :
  n < length l -> nth n (map f l) d' = f (nth n l d).
Proof.
  intros Hn. rewrite (nth_indep _ d' (f d)) by now rewrite length_map.
  apply map_nth.
Qed.

Lemma well_formed_amap A B (f : A -> B) a : well_formed a -> well_formed (amap f a).
Proof. unfold well_formed, amap; simpl. now rewrite length_map. Qed.

Lemma np_where_same A (p : A -> bool) (x : ndarray A) (y : A) :
  well_formed x ->
  np_where (amap p x) x y
  = Ok (mkarray (shape x) (map (fun v => if p v then v else y) (data x))).
Proof.
  intros Hx. unfold np_where.
  rewrite broadcast2_same_shape; auto using well_formed_amap.
  simpl. now rewrite map2_map_l, map2_same.
Qed.

(** On two well-formed arrays of one shape the function returns the two
    parts of the elementwise difference and logs their sums. *)
Lemma compute_density_difference_same_shape ground excited :
  well_formed ground -> well_formed excited -> shape ground = shape excited ->
  let delta := map2 Qcminus (data excited) (data ground) in
  let plus := mkarray (shape ground) (map (fun d => Qcmax d 0%Qc) delta) in
  let minus := mkarray (shape ground) (map (fun d => Qcmin d 0%Qc) delta) in
  compute_density_difference ground excited
  = ([(INFO, Computed_density_differences);
      (DEBUG, Delta_rho_positive_sum (np_sum (data plus)));
      (DEBUG, Delta_rho_negative_sum (np_sum (data minus)))],
     Ok (plus, minus)).
Proof.
  intros Hg He Hs delta plus minus. unfold compute_density_difference.
  rewrite broadcast2_same_shape by auto. rewrite bind_lift_Ok.
  assert (Hd : well_formed (mkarray (shape excited) delta)).
  { unfold well_formed, delta; simpl. rewrite length_map2; [exact He|].
    unfold well_formed in *. congruence. }
  fold delta. rewrite !np_where_same by exact Hd. rewrite !bind_lift_Ok.
  simpl data. simpl shape. rewrite <- Hs.
  rewrite (map_ext _ _ positive_part_max), (map_ext _ _ negative_part_min).
  reflexivity.
Qed.

Lemma item_same_shape ground excited idx :
  well_formed ground -> well_formed excited -> shape ground = shape excited ->
  in_range (shape ground) idx ->
  forall f : Qc -> Qc,
  item 0%Qc (mkarray (shape ground)
               (map f (map2 Qcminus (data excited) (data ground)))) idx
  = f (item 0%Qc excited idx - item 0%Qc ground idx)%Qc.
Proof.
  intros Hg He Hs Hidx f. unfold item; simpl. rewrite <- Hs.
  apply flat_index_lt in Hidx. unfold well_formed in *. rewrite <- Hs in He.
  rewrite (nth_map_lt _ _ 0%Qc) by (rewrite length_map2; lia).
  f_equal. apply nth_map2; lia.
Qed.

(** C2: for two arrays of one shape, [compute_density_difference] returns
    [delta_rho_plus[i,j,k] = max(excited[i,j,k] - ground[i,j,k], 0)] and
    [delta_rho_minus[i,j,k] = min(excited[i,j,k] - ground[i,j,k], 0)], both of
    the inputs' shape, and at every index the two add up to
    [excited - ground] exactly. *)
Theorem compute_density_difference_elementwise ground excited :
  well_formed ground -> well_formed excited -> shape ground = shape excited ->
  exists plus minus,
    value (compute_density_difference ground excited) = Ok (plus, minus) /\
    shape plus = shape ground /\ shape minus = shape ground /\
    well_formed plus /\ well_formed minus /\
    forall idx, in_range (shape ground) idx ->
      let d := (item 0 excited idx - item 0 ground idx)%Qc in
      item 0%Qc plus idx = Qcmax d 0%Qc /\
      item 0%Qc minus idx = Qcmin d 0%Qc /\
      (item 0 plus idx + item 0 minus idx)%Qc = d.
Proof.
  intros Hg He Hs.
  rewrite (compute_density_difference_same_shape Hg He Hs).
  eexists _, _. split; [reflexivity|]. simpl value.
  assert (Hlen : length (map2 Qcminus (data excited) (data ground))
                 = size (shape ground)).
  { unfold well_formed in *. rewrite length_map2; congruence. }
  repeat split; try (unfold well_formed; simpl; now rewrite length_map).
  - now apply item_same_shape.
  - now apply item_same_shape.
  - rewrite !item_same_shape by assumption. apply parts_sum.
Qed.

Lemma compute_density_difference_elementwise_witness :
  exists plus minus,
    value (compute_density_difference (cell 1%Qc) (cell 0%Qc)) = Ok (plus, minus) /\
    item 0%Qc plus (0, 0, 0) = 0%Qc /\
    item 0%Qc minus (0, 0, 0) = (- (1))%Qc.
Proof.
  destruct (@compute_density_difference_elementwise (cell 1%Qc) (cell 0%Qc))
    as (plus & minus & E & _ & _ & _ & _ & H); try reflexivity.
  exists plus, minus. split; [exact E|].
  destruct (H (0, 0, 0)) as (Hp & Hm & _); [simpl; lia|].
  rewrite Hp, Hm. split; apply Qc_is_canon; reflexivity.
Defined.

(** ** Sums over the grid *)

Local Open Scope Qc_scope.

Lemma np_sum_map_seq (f : nat -> Qc) n : np_sum (map f (seq 0 n)) = sum_below n f.
Proof.
  induction n as [|n IH].
  - reflexivity.
  - rewrite seq_S, map_app, np_sum_app, IH. simpl.
    rewrite np_sum_cons, np_sum_nil. ring.
Qed.

Lemma np_sum_flat_map_seq A (f : A -> Qc) (g : nat -> list A) n :
  np_sum (map f (flat_map g (seq 0 n))) = sum_below n (fun i => np_sum (map f (g i))).
Proof.
  induction n as [|n IH].
  - reflexivity.
  - rewrite seq_S, flat_map_app, map_app, np_sum_app, IH. simpl.
    now rewrite app_nil_r.
Qed.

Lemma sum_below_ext n (f g : nat -> Qc) :
  (forall i, (i < n)%nat -> f i = g i) -> sum_below n f = sum_below n g.
Proof.
  induction n as [|n IH]; intros H; simpl.
  - reflexivity.
  - rewrite IH, H by auto. reflexivity.
Qed.

Lemma np_sum_all_indices s (f : nat * nat * nat -> Qc) :
  np_sum (map f (all_indices s)) = sum_over_grid s f.
Proof.
  destruct s as [[nx ny] nz]. unfold all_indices, sum_over_grid.
  rewrite np_sum_flat_map_seq. apply sum_below_ext. intros i _.
  rewrite np_sum_flat_map_seq. apply sum_below_ext. intros j _.
  rewrite map_map. apply np_sum_map_seq.
Qed.

Lemma np_sum_data (a : ndarray Qc) :
  well_formed a -> np_sum (data a) = sum_over_grid (shape a) (item 0 a).
Proof.
  intros Hwf. rewrite <- (map_item_all_indices 0 Hwf) at 1.
  apply np_sum_all_indices.
Qed.

Lemma map2_map_map A B C D (f : B -> C -> D) (g : A -> B) (h : A -> C) l :
  map2 f (map g l) (map h l) = map (fun x => f (g x) (h x)) l.
Proof.
  unfold map2. induction l as [|x l IH]; simpl; [reflexivity|now f_equal].
Qed.

Lemma np_sum_weighted (a : ndarray Qc) (f : nat * nat * nat -> Qc) :
  well_formed a ->
  np_sum (map2 Qcmult (map f (all_indices (shape a))) (data a))
  = sum_over_grid (shape a) (fun idx => f idx * item 0 a idx).
Proof.
  intros Hwf. rewrite <- (map_item_all_indices 0 Hwf) at 1.
  rewrite map2_map_map. apply np_sum_all_indices.
Qed.

Local Close Scope Qc_scope.

(** ** calculate_centroid *)

Lemma dimension_of_nat n : dimension (Z.of_nat n) = Ok n.
Proof.
  unfold dimension. destruct (Z.ltb_spec (Z.of_nat n) 0); [lia|].
  now rewrite Nat2Z.id.
Qed.

Lemma shape_of_grid_size_of s : shape_of (grid_size_of s) = ret s.
Proof.
  destruct s as [[nx ny] nz]. unfold shape_of, grid_size_of.
  now rewrite !dimension_of_nat, !bind_lift_Ok.
Qed.

Lemma diagonal_rows grid_spacing sx sy sz :
  diagonal grid_spacing = Some (sx, sy, sz) ->
  exists r0 a r1 b c r2 rest,
    grid_spacing = (sx :: r0) :: (a :: sy :: r1) :: (b :: c :: sz :: r2) :: rest.
Proof.
  unfold diagonal. intros H.
  destruct grid_spacing as [|[|x r0] [|[|a [|y r1]] [|[|b [|c [|z r2]]] rest]]];
    try discriminate.
  inversion H; subst. now exists r0, a, r1, b, c, r2, rest.
Qed.

(** The zero test decides which branch runs. *)
Lemma calculate_centroid_zero density origin grid_size grid_spacing :
  np_sum (data density) = 0%Qc ->
  calculate_centroid density origin grid_size grid_spacing
  = ([(WARNING, Total_density_is_zero)], Ok [0; 0; 0]%Qc).
Proof.
  intros H. unfold calculate_centroid.
  apply Qc_eq_bool_true in H. now rewrite H.
Qed.

Lemma divide_nonzero x y : y <> 0%Qc -> divide x y = Ok (x / y)%Qc.
Proof.
  intros H. unfold divide. apply Qc_eq_bool_false in H. now rewrite H.
Qed.

Lemma well_formed_on_indices A s (f : nat * nat * nat -> A) :
  well_formed (mkarray s (map f (all_indices s))).
Proof.
  unfold well_formed; simpl. now rewrite length_map, length_all_indices.
Qed.

(** One task of the second executor block, on positions given per index. *)
Lemma weighted_task density (f : nat * nat * nat -> Qc) :
  well_formed density -> np_sum (data density) <> 0%Qc ->
  (weighted <- lift (broadcast2 Qcmult
                       (mkarray (shape density)
                                (map f (all_indices (shape density))))
                       density) ;;
   lift (divide (np_sum (data weighted)) (np_sum (data density))))
  = ret (sum_over_grid (shape density) (fun idx => f idx * item 0 density idx)
         / sum_over_grid (shape density) (item 0%Qc density))%Qc.
Proof.
  intros Hwf Hsum.
  rewrite broadcast2_same_shape; auto using well_formed_on_indices.
  rewrite bind_lift_Ok. cbn [data shape].
  rewrite divide_nonzero by assumption.
  now rewrite np_sum_weighted, np_sum_data.
Qed.

Lemma calculate_centroid_nonzero density origin grid_spacing ox oy oz sx sy sz :
  well_formed density ->
  origin = [ox; oy; oz] ->
  diagonal grid_spacing = Some (sx, sy, sz) ->
  np_sum (data density) <> 0%Qc ->
  let c := [weighted_mean density ox sx 0;
            weighted_mean density oy sy 1;
            weighted_mean density oz sz 2] in
  calculate_centroid density origin (grid_size_of (shape density)) grid_spacing
  = ([(DEBUG, Calculated_centroid c)], Ok c).
Proof.
  intros Hwf -> Hdiag Hsum c.
  destruct (diagonal_rows _ Hdiag) as (r0 & a & r1 & b & c' & r2 & rest & ->).
  unfold calculate_centroid.
  pose proof Hsum as Hb. apply Qc_eq_bool_false in Hb. rewrite Hb.
  unfold np_indices. rewrite shape_of_grid_size_of, bind_ret, bind_ret.
  cbn [for_each map].
  repeat (progress (cbn [getitem nth_error]; rewrite ?bind_lift_Ok, ?bind_ret)).
  unfold amap. cbn [data shape]. rewrite !map_map.
  rewrite !weighted_task by assumption.
  rewrite ?bind_ret.
  reflexivity.
Qed.

Lemma calculate_centroid_value density origin grid_spacing ox oy oz sx sy sz :
  well_formed density ->
  origin = [ox; oy; oz] ->
  diagonal grid_spacing = Some (sx, sy, sz) ->
  value (calculate_centroid density origin (grid_size_of (shape density))
                            grid_spacing)
  = Ok (centroid density (ox, oy, oz) (sx, sy, sz)).
Proof.
  intros Hwf Ho Hdiag. unfold centroid. rewrite <- np_sum_data by assumption.
  destruct (Qc_eq_bool (np_sum (data density)) 0%Qc) eqn:E.
  - apply Qc_eq_bool_true in E. now rewrite calculate_centroid_zero.
  - apply Qc_eq_bool_false in E.
    now rewrite (calculate_centroid_nonzero _ Hwf Ho Hdiag E).
Qed.

(** Closed equations and disequations between rationals in canonical form. *)
Ltac qc_eq := apply Qc_is_canon; vm_compute; reflexivity.
Ltac qc_neq :=
  let H := fresh in
  intros H; apply (f_equal this) in H; vm_compute in H; discriminate H.
Ltac qc_list := repeat first [qc_eq | reflexivity | progress f_equal].


(** C4: a field whose total is zero, the all-zero field among them, gets
    the zero vector whatever the geometry; the call returns normally
    after logging a warning, and nothing is divided. *)
Theorem calculate_centroid_zero_total density origin grid_size grid_spacing :
  np_sum (data density) = 0%Qc ->
  calculate_centroid density origin grid_size grid_spacing
  = ([(WARNING, Total_density_is_zero)], Ok [0; 0; 0]%Qc).
Proof. apply calculate_centroid_zero. Qed.

(** ** No division by zero *)

Lemma bind_not_raise A B (m : M A) (k : A -> M B) e :
  value m <> Raise e ->
  (forall a, value m = Ok a -> value (k a) <> Raise e) ->
  value (bind m k) <> Raise e.
Proof.
  intros Hm Hk. destruct (value m) as [a|e'] eqn:E.
  - rewrite (value_bind_Ok _ _ E). now apply Hk.
  - rewrite (value_bind_Raise _ _ E). intros H. apply Hm. congruence.
Qed.

Lemma for_each_not_raise A B (task : A -> M B) l e :
  (forall x, In x l -> value (task x) <> Raise e) ->
  value (for_each task l) <> Raise e.
Proof.
  induction l as [|x l IH]; intros H; simpl.
  - discriminate.
  - apply bind_not_raise; [apply H; now left|]. intros y _.
    apply bind_not_raise; [apply IH; intros; apply H; now right|].
    intros ys _. discriminate.
Qed.

Lemma getitem_not_divide A (l : list A) i :
  value (lift (getitem l i)) <> Raise DivideByZero.
Proof. unfold getitem. destruct (nth_error l i); discriminate. Qed.

Lemma broadcast2_not_divide A B C (f : A -> B -> C) a b :
  value (lift (broadcast2 f a b)) <> Raise DivideByZero.
Proof.
  unfold broadcast2. destruct (broadcast_shape (shape a) (shape b)); discriminate.
Qed.

Lemma dimension_not_divide n : value (lift (dimension n)) <> Raise DivideByZero.
Proof. unfold dimension. destruct (n <? 0)%Z; discriminate. Qed.

Lemma np_indices_not_divide grid_size :
  value (np_indices grid_size) <> Raise DivideByZero.
Proof.
  destruct grid_size as [[nx ny] nz]. unfold np_indices, shape_of.
  repeat (apply bind_not_raise; [try apply dimension_not_divide|intros ? _]);
    discriminate.
Qed.

Lemma divide_not_divide x y :
  y <> 0%Qc -> value (lift (divide x y)) <> Raise DivideByZero.
Proof. intros H. rewrite divide_nonzero by assumption. discriminate. Qed.

(** C10: [calculate_centroid] never divides by zero.  The zero total
    returns before the division, and on the other branch the divisor is
    the non-zero total, so the division fault is not among the outcomes
    of the call, for any field and any geometry. *)
Theorem calculate_centroid_never_divides_by_zero
    density origin grid_size grid_spacing :
  value (calculate_centroid density origin grid_size grid_spacing)
  <> Raise DivideByZero.
Proof.
  unfold calculate_centroid.
  destruct (Qc_eq_bool (np_sum (data density)) 0%Qc) eqn:E.
  - discriminate.
  - apply Qc_eq_bool_false in E.
    apply bind_not_raise; [apply np_indices_not_divide|]. intros grid_indices _.
    apply bind_not_raise.
    { apply for_each_not_raise. intros idx _.
      repeat (apply bind_not_raise; [apply getitem_not_divide|intros ? _]).
      discriminate. }
    intros grid_positions _.
    apply bind_not_raise.
    { apply for_each_not_raise. intros idx _.
      apply bind_not_raise; [apply getitem_not_divide|]. intros gp _.
      apply bind_not_raise; [apply broadcast2_not_divide|]. intros weighted _.
      now apply divide_not_divide. }
    intros centroid _. discriminate.
Qed.


Lemma calculate_centroid_zero_total_witness :
  calculate_centroid (zeros (2, 3, 1)) [] (-(4), 0, 7)%Z [[]]
  = ([(WARNING, Total_density_is_zero)], Ok [0; 0; 0]%Qc).
Proof.
  apply calculate_centroid_zero_total. qc_eq.
Defined.

(** ** compute_dct_and_qct *)

Lemma Q2R_Qcplus (x y : Qc) : Q2R (x + y)%Qc = (Q2R x + Q2R y)%R.
Proof.
  transitivity (Q2R (x + y)%Q); [apply Qeq_eqR, Qred_correct|apply Q2R_plus].
Qed.

Lemma Q2R_Qcmult (x y : Qc) : Q2R (x * y)%Qc = (Q2R x * Q2R y)%R.
Proof.
  transitivity (Q2R (x * y)%Q); [apply Qeq_eqR, Qred_correct|apply Q2R_mult].
Qed.

Lemma Q2R_Qc0 : Q2R 0%Qc = 0%R.
Proof. unfold Q2R; simpl. lra. Qed.

(** [np.linalg.norm] is the Euclidean norm. *)
Lemma np_linalg_norm_euclidean v : np_linalg_norm v = euclidean_norm v.
Proof.
  unfold np_linalg_norm, euclidean_norm. f_equal.
  induction v as [|x v IH]; cbn [map fold_right].
  - rewrite np_sum_nil. apply Q2R_Qc0.
  - now rewrite np_sum_cons, Q2R_Qcplus, Q2R_Qcmult, IH.
Qed.



(** The value of the call once both centroids are known. *)
Lemma compute_dct_and_qct_from_centroids plus minus origin grid_size grid_spacing cp cm :
  value (calculate_centroid plus origin grid_size grid_spacing) = Ok cp ->
  value (calculate_centroid minus origin grid_size grid_spacing) = Ok cm ->
  value (compute_dct_and_qct plus minus origin grid_size grid_spacing)
  = Ok (np_linalg_norm (vsub cp cm), np_sum (data plus), cp, cm).
Proof.
  intros Hp Hm. unfold compute_dct_and_qct.
  rewrite (value_bind_Ok _ _ Hp), (value_bind_Ok _ _ Hm). reflexivity.
Qed.

Lemma compute_dct_and_qct_value plus minus origin grid_spacing ox oy oz sx sy sz :
  well_formed plus -> well_formed minus -> shape minus = shape plus ->
  origin = [ox; oy; oz] ->
  diagonal grid_spacing = Some (sx, sy, sz) ->
  let cp := centroid plus (ox, oy, oz) (sx, sy, sz) in
  let cm := centroid minus (ox, oy, oz) (sx, sy, sz) in
  value (compute_dct_and_qct plus minus origin (grid_size_of (shape plus))
                             grid_spacing)
  = Ok (np_linalg_norm (vsub cp cm), np_sum (data plus), cp, cm).
Proof.
  intros Hp Hm Hs Ho Hdiag cp cm.
  apply compute_dct_and_qct_from_centroids.
  - now apply calculate_centroid_value.
  - rewrite <- Hs. now apply calculate_centroid_value.
Qed.

Lemma Q2R_Qcminus (x y : Qc) : Q2R (x - y)%Qc = (Q2R x - Q2R y)%R.
Proof.
  unfold Qcminus. rewrite Q2R_Qcplus. unfold Rminus. f_equal.
  transitivity (Q2R (- y)%Q); [apply Qeq_eqR, Qred_correct|apply Q2R_opp].
Qed.

(** The norm of the difference of two vectors is their Euclidean
    distance. *)
Lemma np_linalg_norm_vsub u v :
  np_linalg_norm (vsub u v) = euclidean_distance u v.
Proof.
  unfold np_linalg_norm, euclidean_distance, vsub, map2. f_equal.
  revert v. induction u as [|x u IH]; intros [|y v];
    cbn [combine map squared_differences];
    try (rewrite np_sum_nil; apply Q2R_Qc0).
  cbn [fst snd].
  now rewrite np_sum_cons, Q2R_Qcplus, Q2R_Qcmult, Q2R_Qcminus, IH.
Qed.

(** C3: for every pair of difference fields and every geometry, once
    [calculate_centroid] has returned [centroid_plus] for [delta_rho_plus]
    and [centroid_minus] for [delta_rho_minus], [compute_dct_and_qct]
    returns these two centroids, [dct] equal to the Euclidean distance of
    [centroid_plus] and [centroid_minus] (the square root of the sum of
    the squares of [centroid_plus[a] - centroid_minus[a]]) and [qct] equal
    to the sum of [delta_rho_plus] over all grid indices; and on a grid
    of the fields' shape, with an origin of three components and a
    spacing matrix with a diagonal, the two centroid calls do return. *)
Theorem compute_dct_and_qct_metrics plus minus origin grid_size grid_spacing :
  well_formed plus ->
  (forall centroid_plus centroid_minus,
     value (calculate_centroid plus origin grid_size grid_spacing)
     = Ok centroid_plus ->
     value (calculate_centroid minus origin grid_size grid_spacing)
     = Ok centroid_minus ->
     value (compute_dct_and_qct plus minus origin grid_size grid_spacing)
     = Ok (euclidean_distance centroid_plus centroid_minus,
           sum_over_grid (shape plus) (item 0%Qc plus),
           centroid_plus, centroid_minus)) /\
  (forall ox oy oz sx sy sz,
     well_formed minus -> shape minus = shape plus ->
     origin = [ox; oy; oz] ->
     diagonal grid_spacing = Some (sx, sy, sz) ->
     grid_size = grid_size_of (shape plus) ->
     exists centroid_plus centroid_minus,
       value (calculate_centroid plus origin grid_size grid_spacing)
       = Ok centroid_plus /\
       value (calculate_centroid minus origin grid_size grid_spacing)
       = Ok centroid_minus).
Proof.
  intros Hp. split.
  - intros cp cm Ep Em.
    rewrite (compute_dct_and_qct_from_centroids _ _ _ _ _ Ep Em).
    now rewrite np_linalg_norm_vsub, np_sum_data.
  - intros ox oy oz sx sy sz Hm Hs Ho Hdiag ->.
    exists (centroid plus (ox, oy, oz) (sx, sy, sz)),
           (centroid minus (ox, oy, oz) (sx, sy, sz)).
    split; [now apply calculate_centroid_value|].
    rewrite <- Hs. now apply calculate_centroid_value.
Qed.

Lemma euclidean_distance_example :
  euclidean_distance [1; 1; 1]%Qc [0; 0; 1]%Qc = sqrt 2.
Proof.
  unfold euclidean_distance. f_equal. simpl.
  unfold Q2R; simpl. lra.
Qed.

Lemma single_point_centroid :
  value (calculate_centroid single_point zero_origin (2, 2, 2)%Z identity_spacing)
  = Ok [1; 1; 1]%Qc.
Proof.
  etransitivity.
  - apply (@calculate_centroid_value single_point zero_origin identity_spacing
             0%Qc 0%Qc 0%Qc 1%Qc 1%Qc 1%Qc); reflexivity.
  - qc_list.
Qed.

Lemma negative_point_centroid :
  value (calculate_centroid negative_point zero_origin (2, 2, 2)%Z
                            identity_spacing)
  = Ok [0; 0; 1]%Qc.
Proof.
  etransitivity.
  - apply (@calculate_centroid_value negative_point zero_origin identity_spacing
             0%Qc 0%Qc 0%Qc 1%Qc 1%Qc 1%Qc); reflexivity.
  - qc_list.
Qed.

(** A positive part concentrated at index (1,1,1) and a negative part
    concentrated at index (0,0,1): the centroids are these two points,
    at distance [sqrt 2]. *)
Lemma compute_dct_and_qct_metrics_witness :
  value (compute_dct_and_qct single_point negative_point zero_origin
                             (2, 2, 2)%Z identity_spacing)
  = Ok (sqrt 2, 1%Qc, [1; 1; 1]%Qc, [0; 0; 1]%Qc).
Proof.
  destruct (@compute_dct_and_qct_metrics single_point negative_point
              zero_origin (2, 2, 2)%Z identity_spacing eq_refl)
    as [Hvalue Hreturns].
  destruct (Hreturns 0%Qc 0%Qc 0%Qc 1%Qc 1%Qc 1%Qc
                     eq_refl eq_refl eq_refl eq_refl eq_refl)
    as (cp & cm & Hp & Hm).
  assert (Ep : cp = [1; 1; 1]%Qc).
  { assert (E : Ok cp = Ok [1; 1; 1]%Qc)
      by (rewrite <- Hp; exact single_point_centroid).
    congruence. }
  assert (Em : cm = [0; 0; 1]%Qc).
  { assert (E : Ok cm = Ok [0; 0; 1]%Qc)
      by (rewrite <- Hm; exact negative_point_centroid).
    congruence. }
  subst cp cm. rewrite (Hvalue _ _ Hp Hm).
  rewrite euclidean_distance_example. qc_list.
Defined.

(** ** The decomposition of the difference *)

(** C5, counterexample: with ground 1 and excited 0 at the only grid
    point, the parts are 0 and -1, whose difference 1 is not
    [excited - ground = -1]. *)
Lemma difference_of_parts_counterexample :
  exists plus minus,
    value (compute_density_difference (cell 1%Qc) (cell 0%Qc)) = Ok (plus, minus) /\
    (item 0 plus (0, 0, 0)%nat - item 0 minus (0, 0, 0)%nat)%Qc
    <> (item 0 (cell 0%Qc) (0, 0, 0)%nat - item 0 (cell 1%Qc) (0, 0, 0)%nat)%Qc.
Proof.
  rewrite compute_density_difference_same_shape by reflexivity.
  eexists _, _. split; [reflexivity|]. qc_neq.
Qed.

(** C5, amended: for two arrays of one shape the two outputs add up to
    [excited - ground] exactly, their difference is its absolute value,
    and their product is zero at every index, so at no cell are both
    non-zero. *)
Theorem compute_density_difference_decomposition ground excited :
  well_formed ground -> well_formed excited -> shape ground = shape excited ->
  exists plus minus,
    value (compute_density_difference ground excited) = Ok (plus, minus) /\
    forall idx, in_range (shape ground) idx ->
      let d := (item 0 excited idx - item 0 ground idx)%Qc in
      (item 0 plus idx + item 0 minus idx)%Qc = d /\
      (item 0 plus idx - item 0 minus idx)%Qc = Qcabs d /\
      (item 0 plus idx * item 0 minus idx)%Qc = 0%Qc.
Proof.
  intros Hg He Hs.
  rewrite (compute_density_difference_same_shape Hg He Hs).
  eexists _, _. split; [reflexivity|]. intros idx Hidx d.
  rewrite !item_same_shape by assumption. fold d.
  split; [apply parts_sum|]. split; [apply parts_difference|apply parts_product].
Qed.

Lemma compute_density_difference_decomposition_witness :
  exists plus minus,
    value (compute_density_difference (cell 1%Qc) (cell 0%Qc)) = Ok (plus, minus) /\
    (item 0 plus (0, 0, 0)%nat + item 0 minus (0, 0, 0)%nat)%Qc = (- (1))%Qc /\
    (item 0 plus (0, 0, 0)%nat - item 0 minus (0, 0, 0)%nat)%Qc = 1%Qc /\
    (item 0 plus (0, 0, 0)%nat * item 0 minus (0, 0, 0)%nat)%Qc = 0%Qc.
Proof.
  destruct (@compute_density_difference_decomposition (cell 1%Qc) (cell 0%Qc))
    as (plus & minus & E & H); try reflexivity.
  exists plus, minus. split; [exact E|].
  destruct (H (0, 0, 0)) as (Hsum & Hdiff & Hprod); [simpl; lia|].
  rewrite Hsum, Hdiff, Hprod. repeat split; qc_eq.
Defined.

(** ** Signs *)

Lemma compute_dct_and_qct_qct plus minus origin grid_size grid_spacing dct qct cp cm :
  value (compute_dct_and_qct plus minus origin grid_size grid_spacing)
  = Ok (dct, qct, cp, cm) ->
  qct = np_sum (data plus).
Proof.
  unfold compute_dct_and_qct.
  destruct (value (calculate_centroid plus origin grid_size grid_spacing))
    as [c1|e] eqn:E1.
  2: { rewrite (value_bind_Raise _ _ E1). discriminate. }
  rewrite (value_bind_Ok _ _ E1).
  destruct (value (calculate_centroid minus origin grid_size grid_spacing))
    as [c2|e] eqn:E2.
  2: { rewrite (value_bind_Raise _ _ E2). discriminate. }
  rewrite (value_bind_Ok _ _ E2). simpl. congruence.
Qed.

Lemma Forall_map_Qcmax l : Forall (fun x => 0 <= x)%Qc (map (fun d => Qcmax d 0%Qc) l).
Proof. apply Forall_map, Forall_forall. intros d _. apply Qcmax_0_nonneg. Qed.

Lemma Forall_map_Qcmin l : Forall (fun x => x <= 0)%Qc (map (fun d => Qcmin d 0%Qc) l).
Proof. apply Forall_map, Forall_forall. intros d _. apply Qcmin_0_nonpos. Qed.

(** C9: for two arrays of one shape the first output of
    [compute_density_difference] is non-negative and the second is
    non-positive at every index; so whatever [compute_dct_and_qct] returns
    on these outputs has a non-negative [qct], and on a grid of the
    arrays' shape it does return. *)
Theorem compute_density_difference_signs ground excited :
  well_formed ground -> well_formed excited -> shape ground = shape excited ->
  exists plus minus,
    value (compute_density_difference ground excited) = Ok (plus, minus) /\
    Forall (fun x => 0 <= x)%Qc (data plus) /\
    Forall (fun x => x <= 0)%Qc (data minus) /\
    (forall idx, in_range (shape ground) idx ->
       (0 <= item 0 plus idx)%Qc /\ (item 0 minus idx <= 0)%Qc) /\
    (forall origin grid_size grid_spacing dct qct cp cm,
       value (compute_dct_and_qct plus minus origin grid_size grid_spacing)
       = Ok (dct, qct, cp, cm) -> (0 <= qct)%Qc) /\
    (forall origin grid_spacing ox oy oz sx sy sz,
       origin = [ox; oy; oz] -> diagonal grid_spacing = Some (sx, sy, sz) ->
       exists dct qct cp cm,
         value (compute_dct_and_qct plus minus origin
                                    (grid_size_of (shape ground)) grid_spacing)
         = Ok (dct, qct, cp, cm) /\ (0 <= qct)%Qc).
Proof.
  intros Hg He Hs.
  rewrite (compute_density_difference_same_shape Hg He Hs).
  set (delta := map2 Qcminus (data excited) (data ground)).
  assert (Hlen : length delta = size (shape ground)).
  { unfold delta, well_formed in *. rewrite length_map2; congruence. }
  eexists _, _. split; [reflexivity|]. cbn [data].
  split; [apply Forall_map_Qcmax|]. split; [apply Forall_map_Qcmin|].
  split; [|split].
  - intros idx Hidx. unfold delta. rewrite !item_same_shape by assumption.
    split; [apply Qcmax_0_nonneg|apply Qcmin_0_nonpos].
  - intros origin grid_size grid_spacing dct qct cp cm H.
    apply compute_dct_and_qct_qct in H. subst qct.
    apply np_sum_nonneg, Forall_map_Qcmax.
  - intros origin grid_spacing ox oy oz sx sy sz Ho Hdiag.
    eexists _, _, _, _. split.
    + apply (@compute_dct_and_qct_value
               (mkarray (shape ground) (map (fun d => Qcmax d 0%Qc) delta))
               (mkarray (shape ground) (map (fun d => Qcmin d 0%Qc) delta))
               origin grid_spacing ox oy oz sx sy sz);
        try assumption; try reflexivity;
        unfold well_formed; cbn [data shape]; now rewrite length_map.
    + apply np_sum_nonneg, Forall_map_Qcmax.
Qed.

Lemma compute_density_difference_signs_witness :
  exists plus minus,
    value (compute_density_difference (zeros (2, 2, 2)) single_point)
    = Ok (plus, minus) /\
    Forall (fun x => 0 <= x)%Qc (data plus) /\
    Forall (fun x => x <= 0)%Qc (data minus) /\
    exists dct qct cp cm,
      value (compute_dct_and_qct plus minus zero_origin (2, 2, 2)%Z
                                 identity_spacing)
      = Ok (dct, qct, cp, cm) /\ (0 <= qct)%Qc.
Proof.
  destruct (@compute_density_difference_signs (zeros (2, 2, 2)) single_point)
    as (plus & minus & E & Hp & Hm & _ & _ & H); try reflexivity.
  exists plus, minus. repeat split; try assumption.
  exact (H zero_origin identity_spacing 0%Qc 0%Qc 0%Qc 1%Qc 1%Qc 1%Qc
           eq_refl eq_refl).
Defined.

(** ** Swapping ground and excited *)

Local Open Scope Qc_scope.










Local Close Scope Qc_scope.

Lemma pipeline_value ground excited origin grid_size grid_spacing plus minus :
  value (compute_density_difference ground excited) = Ok (plus, minus) ->
  value (pipeline ground excited origin grid_size grid_spacing)
  = value (compute_dct_and_qct plus minus origin grid_size grid_spacing).
Proof.
  intros H. unfold pipeline. now rewrite (value_bind_Ok _ _ H).
Qed.




(** The scenario of two identical grids: both parts are all zero, so the
    zero-mass convention gives both centroids, whatever the geometry, and
    [qct] and [dct] are zero. *)
Lemma np_sum_all_zero l : Forall (fun x => x = 0%Qc) l -> np_sum l = 0%Qc.
Proof.
  induction 1 as [|x l Hx _ IH].
  - reflexivity.
  - rewrite np_sum_cons, Hx, IH. ring.
Qed.

Lemma pipeline_identical_grids density origin grid_size grid_spacing :
  well_formed density ->
  value (pipeline density density origin grid_size grid_spacing)
  = Ok (0%R, 0%Qc, [0; 0; 0]%Qc, [0; 0; 0]%Qc).
Proof.
  intros Hwf.
  pose proof (compute_density_difference_same_shape Hwf Hwf eq_refl) as E.
  cbv zeta in E. rewrite map2_same, !map_map in E.
  assert (Hp : np_sum (map (fun x => Qcmax (x - x) 0) (data density))%Qc = 0%Qc).
  { apply np_sum_all_zero, Forall_map, Forall_forall. intros x _.
    replace (x - x)%Qc with 0%Qc by ring. qc_eq. }
  assert (Hm : np_sum (map (fun x => Qcmin (x - x) 0) (data density))%Qc = 0%Qc).
  { apply np_sum_all_zero, Forall_map, Forall_forall. intros x _.
    replace (x - x)%Qc with 0%Qc by ring. qc_eq. }
  erewrite pipeline_value by (rewrite E; reflexivity).
  erewrite compute_dct_and_qct_from_centroids;
    try (rewrite calculate_centroid_zero by assumption; reflexivity).
  cbn [data]. rewrite Hp. repeat f_equal.
  unfold np_linalg_norm.
  replace (np_sum (map (fun x => x * x)%Qc (vsub [0; 0; 0]%Qc [0; 0; 0]%Qc)))
    with 0%Qc by qc_eq.
  rewrite Q2R_Qc0. apply sqrt_0.
Qed.

(** ** The reader *)

Lemma value_bind_inv A B (m : M A) (k : A -> M B) b :
  value (bind m k) = Ok b -> exists a, value m = Ok a /\ value (k a) = Ok b.
Proof.
  destruct (value m) as [a|e] eqn:E; intros H.
  - rewrite (value_bind_Ok _ _ E) in H. now exists a.
  - rewrite (value_bind_Raise _ _ E) in H. discriminate.
Qed.

Lemma raises_only_bind A B P (m : M A) (k : A -> M B) :
  raises_only P m -> (forall a, value m = Ok a -> raises_only P (k a)) ->
  raises_only P (bind m k).
Proof.
  intros Hm Hk e. destruct (value m) as [a|e'] eqn:E.
  - rewrite (value_bind_Ok _ _ E). now apply Hk.
  - rewrite (value_bind_Raise _ _ E). intros H. apply Hm. congruence.
Qed.

Lemma raises_only_Ok A P (m : M A) a : value m = Ok a -> raises_only P m.
Proof. intros E e. rewrite E. discriminate. Qed.

Lemma raises_only_for_each A B P (task : A -> M B) l :
  (forall x, In x l -> raises_only P (task x)) -> raises_only P (for_each task l).
Proof.
  induction l as [|x l IH]; intros H; simpl.
  - now apply raises_only_Ok with (a := []).
  - apply raises_only_bind; [apply H; now left|]. intros y _.
    apply raises_only_bind; [apply IH; intros; apply H; now right|].
    intros ys _. now apply raises_only_Ok with (a := y :: ys).
Qed.

Lemma raises_only_getitem A (l : list A) i :
  raises_only parse_error (lift (getitem l i)).
Proof.
  intros e. unfold getitem. destruct (nth_error l i); simpl; intros H;
    [discriminate|]. left. congruence.
Qed.

Lemma raises_only_int py_int token : raises_only parse_error (int py_int token).
Proof.
  intros e. unfold int. destruct (py_int token); simpl; intros H;
    [discriminate|]. right. congruence.
Qed.

Lemma raises_only_float py_float token :
  raises_only parse_error (float py_float token).
Proof.
  intros e. unfold float. destruct (py_float token); simpl; intros H;
    [discriminate|]. right. congruence.
Qed.

Lemma raises_only_np_array2 A (rows : list (list A)) :
  raises_only parse_error (lift (np_array2 rows)).
Proof.
  intros e. unfold np_array2. destruct rows as [|r rs]; simpl; [discriminate|].
  destruct (forallb _ rs); simpl; intros H; [discriminate|]. right. congruence.
Qed.

Lemma infer_dimension_raises n known e :
  infer_dimension n known = Raise e -> e = ValueError.
Proof.
  unfold infer_dimension. destruct (_ || _); congruence.
Qed.

Lemma raises_only_weaken A (P Q : exn -> Prop) (m : M A) :
  (forall e, P e -> Q e) -> raises_only P m -> raises_only Q m.
Proof. intros H Hm e E. apply H, Hm, E. Qed.

Lemma new_array_raises A dims (values : list A) e :
  new_array dims values = Raise e -> e = ValueError.
Proof.
  destruct dims as [[x y] z]. unfold new_array.
  destruct (_ <=? _)%Z; congruence.
Qed.

(** The cases of [reshape], each with its equations. *)
Ltac reshape_cases nx ny nz :=
  unfold reshape;
  destruct (np_array_dtype (nx, ny, nz)) eqn:?;
  [ destruct (Z.ltb_spec nx 0), (Z.ltb_spec ny 0), (Z.ltb_spec nz 0);
    repeat match goal with
      | |- context [known_size ?l] => destruct (known_size l) eqn:?
      | |- context [infer_dimension ?n ?k] => destruct (infer_dimension n k) eqn:?
      | |- context [(?a =? ?b)%Z] => destruct (Z.eqb_spec a b)
      end
  | | | ].

Lemma raises_only_reshape A (values : list A) grid_size :
  raises_only reader_error (lift (reshape values grid_size)).
Proof.
  intros e. destruct grid_size as [[nx ny] nz]. unfold lift, value; cbn [snd].
  reshape_cases nx ny nz; intros Hr;
    try (right; congruence);
    left; right;
    try congruence;
    try (eapply new_array_raises; eassumption);
    match goal with
    | E : infer_dimension _ _ = Raise _ |- _ =>
        apply infer_dimension_raises in E; congruence
    end.
Qed.

Ltac raises_only_step :=
  first
    [ apply raises_only_getitem
    | apply raises_only_int
    | apply raises_only_float
    | apply raises_only_np_array2
    | apply raises_only_reshape
    | apply raises_only_for_each; intros ? _
    | apply raises_only_bind; [|intros ? _]
    | eapply raises_only_Ok; reflexivity ].

Lemma raises_only_read_header py_int py_float lines :
  raises_only parse_error (read_header py_int py_float lines).
Proof.
  unfold read_header, read_atom_count_line, read_grid_line.
  repeat raises_only_step.
Qed.

Lemma raises_only_read_values py_float lines num_atoms :
  raises_only parse_error (read_values py_float lines num_atoms).
Proof.
  unfold read_values. repeat raises_only_step.
Qed.

(** A file that exists is rejected by [IndexError], [ValueError] or
    [TypeError] only. *)
Lemma raises_only_read_cube_file py_int py_float files filename lines :
  files filename = Some lines ->
  raises_only reader_error (read_cube_file py_int py_float files filename).
Proof.
  assert (W : forall e, parse_error e -> reader_error e) by (intros e; now left).
  intros Hf. unfold read_cube_file. rewrite Hf.
  apply raises_only_bind; [now apply raises_only_Ok with (a := tt)|]. intros _ _.
  apply raises_only_bind; [now apply raises_only_Ok with (a := lines)|].
  intros lines' _.
  apply raises_only_bind;
    [apply (@raises_only_weaken _ parse_error _ _ W), raises_only_read_header|].
  intros [[[num_atoms origin] grid_size] grid_spacing] _.
  apply raises_only_bind;
    [apply (@raises_only_weaken _ parse_error _ _ W), raises_only_read_values|].
  intros values _.
  repeat raises_only_step.
Qed.

Lemma for_each_float_Ok py_float tokens xs :
  value (for_each (float py_float) tokens) = Ok xs ->
  forallb (fun t => match py_float t with Some _ => true | None => false end)
          tokens = true.
Proof.
  revert xs; induction tokens as [|t ts IH]; intros xs H; simpl in *.
  - reflexivity.
  - apply value_bind_inv in H as (x & Hx & H).
    apply value_bind_inv in H as (xs' & Hxs & _).
    unfold float in Hx. destruct (py_float t); [|discriminate].
    simpl. eapply IH, Hxs.
Qed.

Lemma getitem_Ok A (l : list A) i x :
  value (lift (getitem l i)) = Ok x -> nth_error l i = Some x.
Proof.
  unfold getitem. destruct (nth_error l i); simpl; congruence.
Qed.

Lemma header_tokens_ok py_int py_float line token n xs :
  nth_error (split line) 0 = Some token ->
  value (int py_int token) = Ok n ->
  value (for_each (float py_float) (tl (split line))) = Ok xs ->
  header_line_ok py_int py_float line = true.
Proof.
  intros Ht Hn Hxs. unfold header_line_ok.
  destruct (split line) as [|t ts]; [discriminate|].
  simpl in Ht. inversion Ht; subst t.
  unfold int in Hn. destruct (py_int token); [|discriminate].
  eapply for_each_float_Ok, Hxs.
Qed.

Lemma read_atom_count_line_Ok py_int py_float lines r :
  value (read_atom_count_line py_int py_float lines) = Ok r ->
  exists line, nth_error lines 2 = Some line /\
               header_line_ok py_int py_float line = true.
Proof.
  unfold read_atom_count_line. intros H.
  apply value_bind_inv in H as (line & Hl & H).
  apply value_bind_inv in H as (token & Ht & H).
  apply value_bind_inv in H as (n & Hn & H).
  apply value_bind_inv in H as (xs & Hxs & _).
  exists line. split; [now apply getitem_Ok|].
  eapply header_tokens_ok; eauto using getitem_Ok.
Qed.

Lemma read_grid_line_Ok py_int py_float lines i r :
  value (read_grid_line py_int py_float lines i) = Ok r ->
  exists line, nth_error lines (3 + i) = Some line /\
               header_line_ok py_int py_float line = true.
Proof.
  unfold read_grid_line. intros H.
  apply value_bind_inv in H as (line & Hl & H).
  apply value_bind_inv in H as (token & Ht & H).
  apply value_bind_inv in H as (n & Hn & H).
  apply value_bind_inv in H as (xs & Hxs & _).
  exists line. split; [now apply getitem_Ok|].
  eapply header_tokens_ok; eauto using getitem_Ok.
Qed.

(** A header that is read has its four lines, each with an integer first
    token and numeric further tokens. *)
Lemma read_header_Ok py_int py_float lines h :
  value (read_header py_int py_float lines) = Ok h ->
  6 <= length lines /\
  forall i line, 2 <= i < 6 -> nth_error lines i = Some line ->
                 header_line_ok py_int py_float line = true.
Proof.
  unfold read_header. intros H.
  apply value_bind_inv in H as (first & H2 & H).
  apply value_bind_inv in H as (x & H3 & H).
  apply value_bind_inv in H as (y & H4 & H).
  apply value_bind_inv in H as (z & H5 & _).
  apply read_atom_count_line_Ok in H2 as (l2 & E2 & K2).
  apply read_grid_line_Ok in H3 as (l3 & E3 & K3).
  apply read_grid_line_Ok in H4 as (l4 & E4 & K4).
  apply read_grid_line_Ok in H5 as (l5 & E5 & K5).
  split.
  - assert (5 < length lines); [|lia].
    apply nth_error_Some. change (3 + 2) with 5 in E5. congruence.
  - intros i line Hi E.
    assert (Hc : i = 2 \/ i = 3 \/ i = 4 \/ i = 5) by lia.
    change (3 + 0) with 3 in E3. change (3 + 1) with 4 in E4.
    change (3 + 2) with 5 in E5.
    destruct Hc as [-> | [-> | [-> | ->]]]; congruence.
Qed.

Lemma read_cube_file_Ok py_int py_float files filename origin grid_size grid_spacing d :
  value (read_cube_file py_int py_float files filename)
  = Ok (origin, grid_size, grid_spacing, d) ->
  exists lines num_atoms values,
    files filename = Some lines /\
    value (read_header py_int py_float lines)
    = Ok (num_atoms, origin, grid_size, grid_spacing) /\
    value (read_values py_float lines num_atoms) = Ok values /\
    reshape values grid_size = Ok d.
Proof.
  unfold read_cube_file. intros H.
  apply value_bind_inv in H as ([] & _ & H).
  apply value_bind_inv in H as (lines & Hl & H).
  apply value_bind_inv in H as ([[[na o] gs] sp] & Hh & H).
  apply value_bind_inv in H as (values & Hv & H).
  apply value_bind_inv in H as (d' & Hd & H).
  simpl in H. inversion H; subst.
  exists lines, na, values.
  destruct (files filename) as [lines'|]; [|discriminate].
  simpl in Hl. inversion Hl; subst. auto.
Qed.

Lemma read_cube_file_value py_int py_float files filename lines
    num_atoms origin grid_size grid_spacing values :
  files filename = Some lines ->
  value (read_header py_int py_float lines)
  = Ok (num_atoms, origin, grid_size, grid_spacing) ->
  value (read_values py_float lines num_atoms) = Ok values ->
  value (read_cube_file py_int py_float files filename)
  = match reshape values grid_size with
    | Ok d => Ok (origin, grid_size, grid_spacing, d)
    | Raise e => Raise e
    end.
Proof.
  intros Hf Hh Hv. unfold read_cube_file. rewrite Hf.
  rewrite value_bind_Ok with (a := tt) by reflexivity.
  rewrite value_bind_Ok with (a := lines) by reflexivity.
  rewrite (value_bind_Ok _ _ Hh), (value_bind_Ok _ _ Hv).
  destruct (reshape values grid_size) as [d|e]; reflexivity.
Qed.

Lemma new_array_Ok A dims (values : list A) d :
  new_array dims values = Ok d ->
  d = mkarray (let '(x, y, z) := dims in (Z.to_nat x, Z.to_nat y, Z.to_nat z))
              values.
Proof.
  destruct dims as [[x y] z]. unfold new_array.
  destruct (_ <=? _)%Z; congruence.
Qed.

Lemma known_size2 a b k : known_size [a; b] = Some k -> k = (a * b)%Z.
Proof.
  unfold known_size, mul_sizes; cbn [fold_left].
  destruct (1 * a <=? int64_max)%Z; [|discriminate].
  destruct (1 * a * b <=? int64_max)%Z; [|discriminate].
  intros H; injection H as <-. destruct a; reflexivity.
Qed.

Lemma known_size3 a b c k : known_size [a; b; c] = Some k -> k = (a * b * c)%Z.
Proof.
  unfold known_size, mul_sizes; cbn [fold_left].
  destruct (1 * a <=? int64_max)%Z; [|discriminate].
  destruct (1 * a * b <=? int64_max)%Z; [|discriminate].
  destruct (1 * a * b * c <=? int64_max)%Z; [|discriminate].
  intros H; injection H as <-. destruct a; reflexivity.
Qed.

(** [reshape] keeps the buffer. *)
Lemma reshape_data A (values : list A) grid_size d :
  reshape values grid_size = Ok d -> data d = values.
Proof.
  destruct grid_size as [[nx ny] nz].
  reshape_cases nx ny nz; intros Hr; try discriminate;
    apply new_array_Ok in Hr; now subst d.
Qed.

(** With non-negative sizes it succeeds only when the sizes account for
    every value, and the shape is then the three sizes. *)
Lemma reshape_non_negative A (values : list A) grid_size d :
  non_negative grid_size ->
  reshape values grid_size = Ok d ->
  Z.of_nat (length values) = product grid_size /\
  d = mkarray (let '(nx, ny, nz) := grid_size in
               (Z.to_nat nx, Z.to_nat ny, Z.to_nat nz)) values.
Proof.
  destruct grid_size as [[nx ny] nz]. intros (Hx & Hy & Hz).
  reshape_cases nx ny nz; intros Hr; try discriminate; try lia.
  apply new_array_Ok in Hr.
  match goal with E : known_size _ = Some _ |- _ => apply known_size3 in E end.
  split; [unfold product; congruence|exact Hr].
Qed.

(** Sizes that fit, are not negative and do not account for every value
    are a [ValueError]. *)
Lemma reshape_count_mismatch A (values : list A) grid_size :
  np_array_dtype grid_size = int64 -> non_negative grid_size ->
  Z.of_nat (length values) <> product grid_size ->
  reshape values grid_size = Raise ValueError.
Proof.
  destruct grid_size as [[nx ny] nz]. intros Hfit (Hx & Hy & Hz) Hn.
  reshape_cases nx ny nz; try congruence; try lia.
  match goal with E : known_size _ = Some _ |- _ => apply known_size3 in E end.
  unfold product in Hn. congruence.
Qed.

(** Sizes that do not all fit are rejected: by [TypeError] when some fit
    and some are unsigned, by [ValueError] otherwise. *)
Lemma reshape_not_int64 A (values : list A) grid_size :
  np_array_dtype grid_size <> int64 ->
  reshape values grid_size
  = Raise (match np_array_dtype grid_size with
           | float64 => TypeError
           | _ => ValueError
           end).
Proof.
  destruct grid_size as [[nx ny] nz]. intros H. unfold reshape.
  now destruct (np_array_dtype (nx, ny, nz)).
Qed.

(** C8, counterexample: a header whose origin has two components is
    accepted, and with the grid sizes (-1, 2, 2), whose product is -4,
    eight values are accepted as a 2x2x2 array. *)
Lemma read_cube_file_accepts_counterexample :
  (exists origin grid_size grid_spacing d,
     value (read_cube_file decimal_int decimal_float example_files
                           "short_origin.cube")
     = Ok (origin, grid_size, grid_spacing, d) /\
     length origin = 2) /\
  (exists origin grid_spacing d,
     value (read_cube_file decimal_int decimal_float example_files
                           "inferred.cube")
     = Ok (origin, (-1, 2, 2)%Z, grid_spacing, d) /\
     shape d = (2, 2, 2) /\
     Z.of_nat (length (data d)) <> product (-1, 2, 2)%Z).
Proof.
  split.
  - eexists _, _, _, _. split; [vm_compute; reflexivity|reflexivity].
  - eexists _, _, _. split; [vm_compute; reflexivity|].
    split; [reflexivity|discriminate].
Qed.

(** A header that fails makes the reader fail with the same exception. *)
Lemma read_cube_file_header_raises py_int py_float files filename lines e :
  files filename = Some lines ->
  value (read_header py_int py_float lines) = Raise e ->
  value (read_cube_file py_int py_float files filename) = Raise e.
Proof.
  intros Hf Hh. unfold read_cube_file. rewrite Hf.
  rewrite value_bind_Ok with (a := tt) by reflexivity.
  rewrite value_bind_Ok with (a := lines) by reflexivity.
  now apply value_bind_Raise.
Qed.

(** C8, amended: a file that exists is rejected, by [IndexError] or
    [ValueError], when it has fewer than six lines or when one of its four
    header lines lacks a first token that is an integer or holds a further
    token that is not a number; how many numbers follow is not checked.
    Once the header and the density values are read, grid sizes that do
    not all fit a signed 64-bit integer are rejected, by [TypeError] when
    [np.array] makes them floating (one fits and one is unsigned) and by
    [ValueError] otherwise; grid sizes that fit and are non-negative are
    rejected by [ValueError] when the number of density values is not
    their product.  A read that succeeds returns every parsed value:
    nothing is truncated. *)
Theorem read_cube_file_rejects py_int py_float files filename lines :
  files filename = Some lines ->
  let read := read_cube_file py_int py_float files filename in
  let fails := exists e, value read = Raise e /\ parse_error e in
  (length lines < 6 -> fails) /\
  (forall i line,
     2 <= i < 6 -> nth_error lines i = Some line ->
     header_line_ok py_int py_float line = false -> fails) /\
  (forall num_atoms origin grid_size grid_spacing values,
     value (read_header py_int py_float lines)
     = Ok (num_atoms, origin, grid_size, grid_spacing) ->
     value (read_values py_float lines num_atoms) = Ok values ->
     (np_array_dtype grid_size <> int64 ->
      exists e, value read = Raise e /\ (e = TypeError \/ e = ValueError)) /\
     (np_array_dtype grid_size = float64 -> value read = Raise TypeError) /\
     (np_array_dtype grid_size = int64 -> non_negative grid_size ->
      Z.of_nat (length values) <> product grid_size ->
      value read = Raise ValueError)) /\
  (forall origin grid_size grid_spacing d,
     value read = Ok (origin, grid_size, grid_spacing, d) ->
     exists num_atoms,
       value (read_header py_int py_float lines)
       = Ok (num_atoms, origin, grid_size, grid_spacing) /\
       value (read_values py_float lines num_atoms) = Ok (data d)).
Proof.
  intros Hf read fails.
  assert (Hfails : (forall h, value (read_header py_int py_float lines) <> Ok h)
                   -> fails).
  { intros H. unfold fails, read.
    destruct (value (read_header py_int py_float lines)) as [h|e] eqn:E.
    - now destruct (H h).
    - exists e. split.
      + exact (read_cube_file_header_raises _ _ _ _ Hf E).
      + exact (raises_only_read_header _ _ _ E). }
  split; [|split; [|split]].
  - intros Hlen. apply Hfails. intros h Hh.
    apply read_header_Ok in Hh as [Hh _]. lia.
  - intros i line Hi Hline Hbad. apply Hfails. intros h Hh.
    apply read_header_Ok in Hh as [_ Hh].
    rewrite (Hh i line Hi Hline) in Hbad. discriminate.
  - intros na o gs sp vals Hh Hv. unfold read.
    rewrite (read_cube_file_value _ _ _ _ Hf Hh Hv). split; [|split].
    + intros Hfit. rewrite (@reshape_not_int64 _ vals gs Hfit).
      eexists. split; [reflexivity|].
      destruct (np_array_dtype gs); auto.
    + intros Hfit. rewrite reshape_not_int64 by congruence. now rewrite Hfit.
    + intros Hfit Hgs Hn. now rewrite reshape_count_mismatch.
  - intros o gs sp d E.
    apply read_cube_file_Ok in E as (lines' & na & vals & Hf' & Hh & Hv & Hd).
    rewrite Hf in Hf'. inversion Hf'; subst lines'.
    exists na. split; [exact Hh|]. now rewrite (reshape_data _ _ Hd).
Qed.

Lemma read_cube_file_rejects_witness :
  value (read_cube_file decimal_int decimal_float example_files "truncated.cube")
  = Raise ValueError /\
  value (read_cube_file decimal_int decimal_float example_files "oversized.cube")
  = Raise TypeError /\
  exists e,
    value (read_cube_file decimal_int decimal_float example_files "headless.cube")
    = Raise e /\ parse_error e.
Proof.
  split; [|split].
  - destruct (@read_cube_file_rejects decimal_int decimal_float example_files
                "truncated.cube" _ eq_refl) as (_ & _ & H & _).
    eapply H; [vm_compute; reflexivity|vm_compute; reflexivity|reflexivity
              |simpl; lia|].
    vm_compute. discriminate.
  - destruct (@read_cube_file_rejects decimal_int decimal_float example_files
                "oversized.cube" _ eq_refl) as (_ & _ & H & _).
    eapply H; [vm_compute; reflexivity|vm_compute; reflexivity|reflexivity].
  - destruct (@read_cube_file_rejects decimal_int decimal_float example_files
                "headless.cube" _ eq_refl) as (H & _).
    apply H. vm_compute. lia.
Defined.

(** ** main *)

Lemma no_pipeline_work_bind A B (m : M A) (k : A -> M B) :
  no_pipeline_work m -> (forall a, no_pipeline_work (k a)) ->
  no_pipeline_work (bind m k).
Proof.
  unfold no_pipeline_work. intros Hm Hk. destruct (value m) as [a|e] eqn:E.
  - rewrite (logged_bind_Ok _ _ E). apply Forall_app. split; [exact Hm|apply Hk].
  - now rewrite (logged_bind_Raise _ _ E).
Qed.

Lemma no_pipeline_work_silent A (r : result A) : no_pipeline_work (lift r).
Proof. constructor. Qed.

Lemma no_pipeline_work_logging lvl msg :
  pipeline_message msg = false -> no_pipeline_work (logging lvl msg).
Proof. intros H. repeat constructor. exact H. Qed.

Lemma no_pipeline_work_for_each A B (task : A -> M B) l :
  (forall x, no_pipeline_work (task x)) -> no_pipeline_work (for_each task l).
Proof.
  intros H. induction l as [|x l IH]; simpl.
  - constructor.
  - apply no_pipeline_work_bind; [apply H|]. intros y.
    apply no_pipeline_work_bind; [apply IH|]. intros ys. constructor.
Qed.

Lemma no_pipeline_work_int py_int token : no_pipeline_work (int py_int token).
Proof. unfold int. destruct (py_int token); constructor. Qed.

Lemma no_pipeline_work_float py_float token :
  no_pipeline_work (float py_float token).
Proof. unfold float. destruct (py_float token); constructor. Qed.

Ltac no_pipeline_step :=
  first
    [ apply no_pipeline_work_silent
    | apply no_pipeline_work_int
    | apply no_pipeline_work_float
    | apply no_pipeline_work_logging; reflexivity
    | apply no_pipeline_work_for_each; intros ?
    | apply no_pipeline_work_bind; [|intros ?] ].

(** The reader logs nothing of the pipeline. *)
Lemma no_pipeline_work_read_cube_file py_int py_float files filename :
  no_pipeline_work (read_cube_file py_int py_float files filename).
Proof.
  unfold read_cube_file, read_header, read_values, read_atom_count_line,
    read_grid_line.
  apply no_pipeline_work_bind; [no_pipeline_step|]. intros _.
  apply no_pipeline_work_bind.
  { destruct (files filename); repeat no_pipeline_step. }
  intros lines. apply no_pipeline_work_bind; [repeat no_pipeline_step|].
  intros [[[num_atoms origin] grid_size] grid_spacing].
  repeat no_pipeline_step.
Qed.

Lemma shape_eqb_eq s t : shape_eqb s t = true <-> s = t.
Proof.
  destruct s as [[sx sy] sz], t as [[tx ty] tz]. unfold shape_eqb.
  rewrite !andb_true_iff, !Nat.eqb_eq. split.
  - intros [[-> ->] ->]. reflexivity.
  - intros H. inversion H. auto.
Qed.

(** What [main] does once both files are read and the shapes differ. *)
Lemma main_on_different_shapes py_int py_float files ground_state_file
    excited_state_file origin grid_size grid_spacing ground_density
    origin' grid_size' grid_spacing' excited_density :
  value (read_cube_file py_int py_float files ground_state_file)
  = Ok (origin, grid_size, grid_spacing, ground_density) ->
  value (read_cube_file py_int py_float files excited_state_file)
  = Ok (origin', grid_size', grid_spacing', excited_density) ->
  shape ground_density <> shape excited_density ->
  main py_int py_float files ground_state_file excited_state_file
  = ([(INFO, Starting_calculation)]
       ++ logged (read_cube_file py_int py_float files ground_state_file)
       ++ logged (read_cube_file py_int py_float files excited_state_file)
       ++ [(ERROR, Mismatch_in_grid_size)],
     Ok Grid_size_mismatch).
Proof.
  intros Hg He Hs. unfold main.
  destruct (read_cube_file py_int py_float files ground_state_file) as [lg rg].
  destruct (read_cube_file py_int py_float files excited_state_file) as [le re].
  simpl in Hg, He. subst rg re.
  assert (E : shape_eqb (shape ground_density) (shape excited_density) = false).
  { destruct (shape_eqb _ _) eqn:E; [|reflexivity].
    apply shape_eqb_eq in E. contradiction. }
  cbn. rewrite E. cbn. now rewrite !app_nil_r, <- !app_assoc.
Qed.

Lemma reshape_shape_injective A (values values' : list A) grid_size grid_size' d d' :
  non_negative grid_size -> non_negative grid_size' ->
  reshape values grid_size = Ok d -> reshape values' grid_size' = Ok d' ->
  shape d = shape d' -> grid_size = grid_size'.
Proof.
  intros Hn Hn' Hd Hd'.
  apply reshape_non_negative in Hd as [_ ->]; [|assumption].
  apply reshape_non_negative in Hd' as [_ ->]; [|assumption].
  cbn [shape].
  destruct grid_size as [[nx ny] nz], grid_size' as [[nx' ny'] nz'].
  destruct Hn as (? & ? & ?), Hn' as (? & ? & ?).
  intros Hshape. inversion Hshape. f_equal; [f_equal|]; lia.
Qed.

(** What [main] does once both files are read and the shapes agree. *)
Lemma main_on_equal_shapes py_int py_float files ground_state_file
    excited_state_file origin grid_size grid_spacing ground_density
    origin' grid_size' grid_spacing' excited_density :
  value (read_cube_file py_int py_float files ground_state_file)
  = Ok (origin, grid_size, grid_spacing, ground_density) ->
  value (read_cube_file py_int py_float files excited_state_file)
  = Ok (origin', grid_size', grid_spacing', excited_density) ->
  shape ground_density = shape excited_density ->
  value (main py_int py_float files ground_state_file excited_state_file)
  = match value (pipeline ground_density excited_density
                          origin grid_size grid_spacing) with
    | Ok (dct, qct, cp, cm) => Ok (Results dct qct cp cm)
    | Raise e => Raise e
    end.
Proof.
  intros Hg He Hs. unfold main.
  destruct (read_cube_file py_int py_float files ground_state_file) as [lg rg].
  destruct (read_cube_file py_int py_float files excited_state_file) as [le re].
  simpl in Hg, He. subst rg re.
  apply shape_eqb_eq in Hs.
  cbn -[pipeline]. rewrite Hs. cbn -[pipeline].
  destruct (pipeline ground_density excited_density origin grid_size grid_spacing)
    as [lp [[[[dct qct] cp] cm]|e]]; reflexivity.
Qed.

(** C7, counterexample: the first file has the grid sizes (-1, 2, 2) and
    the second (2, 2, 2); both are read as 2x2x2 arrays, so [main] reports
    no mismatch, the differencing runs, and the run ends in the
    [ValueError] of a centroid. *)
Lemma main_runs_on_grid_size_mismatch_counterexample :
  let run := main decimal_int decimal_float example_files
                  "inferred.cube" "ground.cube" in
  (exists origin grid_spacing d,
     value (read_cube_file decimal_int decimal_float example_files
                           "inferred.cube")
     = Ok (origin, (-1, 2, 2)%Z, grid_spacing, d)) /\
  (exists origin grid_spacing d,
     value (read_cube_file decimal_int decimal_float example_files
                           "ground.cube")
     = Ok (origin, (2, 2, 2)%Z, grid_spacing, d)) /\
  value run = Raise ValueError /\
  In (INFO, Computed_density_differences) (logged run) /\
  ~ In (ERROR, Mismatch_in_grid_size) (logged run).
Proof.
  split; [eexists _, _, _; vm_compute; reflexivity|].
  split; [eexists _, _, _; vm_compute; reflexivity|].
  split; [vm_compute; reflexivity|].
  split.
  - vm_compute. repeat (first [left; reflexivity | right]).
  - vm_compute. intros H.
    repeat (destruct H as [H|H]; [discriminate H|]). exact H.
Qed.

(** C7, amended: [main] compares the shapes of the two arrays, not the
    grid sizes of the two headers.  When both files are read, grid sizes
    that are non-negative and differ give arrays of different shapes; when
    the shapes differ, [main] logs the mismatch and returns, without an
    exception: its log is the start entry, the two readers' entries and
    the mismatch error, and holds no entry of the differencing, of a
    centroid or of the metrics, so none of that work was attempted.  When
    the shapes agree, no mismatch is reported, whatever the grid sizes. *)
Theorem main_stops_on_grid_size_mismatch py_int py_float files
    ground_state_file excited_state_file origin grid_size grid_spacing
    ground_density origin' grid_size' grid_spacing' excited_density :
  value (read_cube_file py_int py_float files ground_state_file)
  = Ok (origin, grid_size, grid_spacing, ground_density) ->
  value (read_cube_file py_int py_float files excited_state_file)
  = Ok (origin', grid_size', grid_spacing', excited_density) ->
  let run := main py_int py_float files ground_state_file excited_state_file in
  (non_negative grid_size -> non_negative grid_size' ->
   grid_size <> grid_size' ->
   shape ground_density <> shape excited_density) /\
  (shape ground_density <> shape excited_density ->
   value run = Ok Grid_size_mismatch /\
   logged run
   = [(INFO, Starting_calculation)]
       ++ logged (read_cube_file py_int py_float files ground_state_file)
       ++ logged (read_cube_file py_int py_float files excited_state_file)
       ++ [(ERROR, Mismatch_in_grid_size)] /\
   no_pipeline_work run) /\
  (shape ground_density = shape excited_density ->
   value run <> Ok Grid_size_mismatch).
Proof.
  intros Hg He run. split; [|split].
  - intros Hn Hn' Hne Hs. apply Hne.
    destruct (read_cube_file_Ok _ _ _ _ Hg) as (? & ? & vg & _ & _ & _ & Rg).
    destruct (read_cube_file_Ok _ _ _ _ He) as (? & ? & ve & _ & _ & _ & Re).
    eapply reshape_shape_injective; eassumption.
  - intros Hs. unfold run, no_pipeline_work.
    rewrite (main_on_different_shapes _ _ _ _ _ Hg He Hs).
    cbn [value logged fst snd].
    split; [reflexivity|]. split; [reflexivity|].
    apply Forall_app. split; [repeat constructor|].
    apply Forall_app. split; [apply no_pipeline_work_read_cube_file|].
    apply Forall_app. split; [apply no_pipeline_work_read_cube_file|].
    repeat constructor.
  - intros Hs. unfold run. rewrite (main_on_equal_shapes _ _ _ _ _ Hg He Hs).
    destruct (value (pipeline _ _ _ _ _)) as [[[[dct qct] cp] cm]|e];
      discriminate.
Qed.

(** The scenario of the specification: a 2x2x2 grid against a 3x3x3 grid. *)
Lemma main_stops_on_grid_size_mismatch_witness :
  let run := main decimal_int decimal_float example_files
                  "ground.cube" "excited.cube" in
  value run = Ok Grid_size_mismatch /\
  logged run
  = [(INFO, Starting_calculation)]
      ++ logged (read_cube_file decimal_int decimal_float example_files
                                "ground.cube")
      ++ logged (read_cube_file decimal_int decimal_float example_files
                                "excited.cube")
      ++ [(ERROR, Mismatch_in_grid_size)] /\
  no_pipeline_work run.
Proof.
  eapply (fun o sp d o' sp' d' Hg He Hs =>
            proj1 (proj2 (@main_stops_on_grid_size_mismatch
                            decimal_int decimal_float example_files
                            "ground.cube" "excited.cube"
                            o (2, 2, 2)%Z sp d o' (3, 3, 3)%Z sp' d' Hg He)) Hs).
  - vm_compute. reflexivity.
  - vm_compute. reflexivity.
  - eapply (fun o sp o' sp' Hg He =>
              proj1 (@main_stops_on_grid_size_mismatch
                       decimal_int decimal_float example_files
                       "ground.cube" "excited.cube"
                       o (2, 2, 2)%Z sp _ o' (3, 3, 3)%Z sp' _ Hg He)).
    + vm_compute. reflexivity.
    + vm_compute. reflexivity.
    + simpl. lia.
    + simpl. lia.
    + discriminate.
Defined.

(** * Further properties of the code *)

(** ** What [calculate_centroid] does with a bad geometry *)

Lemma for_each_length A B (task : A -> M B) l ys :
  value (for_each task l) = Ok ys -> length ys = length l.
Proof.
  revert ys; induction l as [|x l IH]; intros ys H; simpl in H.
  - inversion H. reflexivity.
  - apply value_bind_inv in H as (y & _ & H).
    apply value_bind_inv in H as (ys' & Hys & H).
    inversion H. simpl. f_equal. now apply IH.
Qed.

Lemma for_each_Ok_In A B (task : A -> M B) l ys x :
  value (for_each task l) = Ok ys -> In x l -> exists y, value (task x) = Ok y.
Proof.
  revert ys; induction l as [|x' l IH]; intros ys H Hin; simpl in H.
  - destruct Hin.
  - apply value_bind_inv in H as (y & Hy & H).
    apply value_bind_inv in H as (ys' & Hys & _).
    destruct Hin as [->|Hin]; [now exists y|]. exact (IH _ Hys Hin).
Qed.

Lemma shape_of_non_negative grid_size :
  non_negative grid_size ->
  exists s, shape_of grid_size = ret s.
Proof.
  destruct grid_size as [[nx ny] nz]. intros (Hx & Hy & Hz).
  unfold shape_of, dimension.
  destruct (Z.ltb_spec nx 0), (Z.ltb_spec ny 0), (Z.ltb_spec nz 0); try lia.
  rewrite !bind_lift_Ok. eauto.
Qed.

Lemma shape_of_negative grid_size :
  ~ non_negative grid_size -> shape_of grid_size = raise ValueError.
Proof.
  destruct grid_size as [[nx ny] nz]. intros H.
  unfold shape_of, dimension, non_negative in *.
  destruct (Z.ltb_spec nx 0); [reflexivity|]. rewrite bind_lift_Ok.
  destruct (Z.ltb_spec ny 0); [reflexivity|]. rewrite bind_lift_Ok.
  destruct (Z.ltb_spec nz 0); [reflexivity|]. lia.
Qed.

Lemma getitem_IndexError A (l : list A) i e :
  value (lift (getitem l i)) = Raise e -> e = IndexError.
Proof.
  unfold getitem. destruct (nth_error l i); simpl; congruence.
Qed.

Lemma diagonal_of_getitems grid_spacing r0 r1 r2 (x y z : Qc) :
  nth_error grid_spacing 0 = Some r0 -> nth_error r0 0 = Some x ->
  nth_error grid_spacing 1 = Some r1 -> nth_error r1 1 = Some y ->
  nth_error grid_spacing 2 = Some r2 -> nth_error r2 2 = Some z ->
  diagonal grid_spacing = Some (x, y, z).
Proof.
  destruct grid_spacing as [|a [|b [|c rest]]]; simpl; try discriminate.
  intros E0 H0 E1 H1 E2 H2. inversion E0; inversion E1; inversion E2; subst.
  destruct r0 as [|x0 r0]; [discriminate|].
  destruct r1 as [|? [|y1 r1]]; try discriminate.
  destruct r2 as [|? [|? [|z2 r2]]]; try discriminate.
  simpl in *. congruence.
Qed.

(** X4: when the total is not zero the geometry is used, and a bad one is
    an exception: a negative grid size is a [ValueError]; with
    non-negative sizes, an origin of fewer than three components or a
    spacing matrix without a diagonal is an [IndexError]. *)
Theorem calculate_centroid_bad_geometry density origin grid_size grid_spacing :
  np_sum (data density) <> 0%Qc ->
  (~ non_negative grid_size ->
   calculate_centroid density origin grid_size grid_spacing
   = ([], Raise ValueError)) /\
  (non_negative grid_size ->
   length origin < 3 \/ diagonal grid_spacing = None ->
   value (calculate_centroid density origin grid_size grid_spacing)
   = Raise IndexError).
Proof.
  intros Hsum. apply Qc_eq_bool_false in Hsum.
  unfold calculate_centroid. rewrite Hsum. split.
  - intros Hneg. unfold np_indices. now rewrite (shape_of_negative _ Hneg).
  - intros Hpos Hbad. unfold np_indices.
    destruct (shape_of_non_negative _ Hpos) as (s & ->).
    rewrite !bind_ret.
    match goal with
    | |- value (bind ?block _) = _ =>
        destruct (value block) as [grid_positions|e] eqn:E
    end.
    + exfalso.
      assert (Htask : forall idx, In idx [0; 1; 2] ->
                exists o row sp,
                  nth_error origin idx = Some o /\
                  nth_error grid_spacing idx = Some row /\
                  nth_error row idx = Some sp).
      { intros idx Hin. destruct (for_each_Ok_In _ _ _ E Hin) as (y & Hy).
        apply value_bind_inv in Hy as (o & Ho & Hy).
        apply value_bind_inv in Hy as (gi & _ & Hy).
        apply value_bind_inv in Hy as (row & Hrow & Hy).
        apply value_bind_inv in Hy as (sp & Hsp & _).
        exists o, row, sp. auto using getitem_Ok. }
      destruct (Htask 0) as (o0 & r0 & x & _ & E0 & H0); [simpl; auto|].
      destruct (Htask 1) as (o1 & r1 & y & _ & E1 & H1); [simpl; auto|].
      destruct (Htask 2) as (o2 & r2 & z & Ho2 & E2 & H2); [simpl; auto|].
      destruct Hbad as [Hlen|Hdiag].
      * assert (2 < length origin); [|lia].
        apply nth_error_Some. congruence.
      * rewrite (diagonal_of_getitems _ E0 H0 E1 H1 E2 H2) in Hdiag.
        discriminate.
    + rewrite (value_bind_Raise _ _ E). f_equal.
      assert (Honly : raises_only (fun e => e = IndexError)
                (for_each (fun idx =>
                   o <- lift (getitem origin idx) ;;
                   gi <- lift (getitem
                     (map (fun axis =>
                        mkarray s (map (fun idx => Z.of_nat (component axis idx))
                                       (all_indices s))) [0; 1; 2]) idx) ;;
                   row <- lift (getitem grid_spacing idx) ;;
                   sp <- lift (getitem row idx) ;;
                   ret (amap (fun x => o + x)%Qc
                             (amap (fun n => Z2Qc n * sp)%Qc gi)))%monad
                   [0; 1; 2])).
      { apply raises_only_for_each. intros idx _.
        repeat (apply raises_only_bind;
                [intros ? ?; eapply getitem_IndexError; eassumption|intros ? _]).
        eapply raises_only_Ok; reflexivity. }
      exact (Honly e E).
Qed.

Lemma calculate_centroid_bad_geometry_witness :
  calculate_centroid single_point zero_origin (2, -(1), 2)%Z identity_spacing
  = ([], Raise ValueError) /\
  value (calculate_centroid single_point [0; 0]%Qc (2, 2, 2)%Z identity_spacing)
  = Raise IndexError.
Proof.
  split.
  - apply (@calculate_centroid_bad_geometry single_point zero_origin
             (2, -(1), 2)%Z identity_spacing); [qc_neq|].
    simpl. lia.
  - apply (@calculate_centroid_bad_geometry single_point [0; 0]%Qc
             (2, 2, 2)%Z identity_spacing); [qc_neq| |].
    + simpl. lia.
    + left. simpl. lia.
Defined.

(** ** The distance *)

Lemma calculate_centroid_length density origin grid_size grid_spacing c :
  value (calculate_centroid density origin grid_size grid_spacing) = Ok c ->
  length c = 3.
Proof.
  unfold calculate_centroid.
  destruct (Qc_eq_bool (np_sum (data density)) 0%Qc).
  - intros H. inversion H. reflexivity.
  - intros H.
    apply value_bind_inv in H as (grid_indices & _ & H).
    apply value_bind_inv in H as (grid_positions & _ & H).
    apply value_bind_inv in H as (centroid & Hc & H).
    inversion H; subst. now apply for_each_length in Hc.
Qed.

Lemma compute_dct_and_qct_inv plus minus origin grid_size grid_spacing dct qct cp cm :
  value (compute_dct_and_qct plus minus origin grid_size grid_spacing)
  = Ok (dct, qct, cp, cm) ->
  value (calculate_centroid plus origin grid_size grid_spacing) = Ok cp /\
  value (calculate_centroid minus origin grid_size grid_spacing) = Ok cm /\
  dct = np_linalg_norm (vsub cp cm) /\
  qct = np_sum (data plus).
Proof.
  unfold compute_dct_and_qct. intros H.
  apply value_bind_inv in H as (c1 & H1 & H).
  apply value_bind_inv in H as (c2 & H2 & H).
  simpl in H. inversion H; subst. auto.
Qed.

Lemma vsub_same u : vsub u u = map (fun _ => 0%Qc) u.
Proof.
  unfold vsub, map2.
  induction u as [|x u IH]; cbn [combine map fst snd]; [reflexivity|].
  rewrite IH. f_equal. ring.
Qed.

Lemma np_linalg_norm_zeros A (u : list A) :
  np_linalg_norm (map (fun _ => 0%Qc) u) = 0%R.
Proof.
  unfold np_linalg_norm.
  replace (np_sum (map (fun x => x * x)%Qc (map (fun _ => 0%Qc) u))) with 0%Qc.
  - rewrite Q2R_Qc0. apply sqrt_0.
  - induction u as [|x u IH]; cbn [map]; [now rewrite np_sum_nil|].
    rewrite np_sum_cons, <- IH. ring.
Qed.

(** X5: whatever [compute_dct_and_qct] returns, both centroids have three
    components, [dct] is not negative, and [dct] is zero when the two
    centroids coincide. *)
Theorem compute_dct_and_qct_distance
    plus minus origin grid_size grid_spacing dct qct cp cm :
  value (compute_dct_and_qct plus minus origin grid_size grid_spacing)
  = Ok (dct, qct, cp, cm) ->
  length cp = 3 /\ length cm = 3 /\
  (0 <= dct)%R /\
  (cp = cm -> dct = 0%R).
Proof.
  intros H. apply compute_dct_and_qct_inv in H as (Hp & Hm & -> & _).
  apply calculate_centroid_length in Hp, Hm.
  split; [exact Hp|]. split; [exact Hm|]. split.
  - apply sqrt_pos.
  - intros ->. rewrite vsub_same. apply np_linalg_norm_zeros.
Qed.

(** One field taken as both parts: the two centroids coincide. *)
Lemma compute_dct_and_qct_distance_witness :
  exists dct,
    value (compute_dct_and_qct single_point single_point zero_origin
                               (2, 2, 2)%Z identity_spacing)
    = Ok (dct, np_sum (data single_point), [1; 1; 1]%Qc, [1; 1; 1]%Qc) /\
    (0 <= dct)%R /\ dct = 0%R.
Proof.
  assert (E : value (compute_dct_and_qct single_point single_point
                       zero_origin (2, 2, 2)%Z identity_spacing)
              = Ok (np_linalg_norm (vsub [1; 1; 1]%Qc [1; 1; 1]%Qc),
                    np_sum (data single_point), [1; 1; 1]%Qc, [1; 1; 1]%Qc)).
  { apply compute_dct_and_qct_from_centroids; exact single_point_centroid. }
  eexists. split; [exact E|].
  destruct (@compute_dct_and_qct_distance _ _ _ _ _ _ _ _ _ E)
    as (_ & _ & H0 & H1).
  split; [exact H0|apply H1; reflexivity].
Defined.

Lemma vsub_zeros_r c : length c = 3 -> vsub c [0; 0; 0]%Qc = c.
Proof.
  destruct c as [|x [|y [|z [|]]]]; try discriminate. intros _.
  unfold vsub, map2; cbn [combine map fst snd]. repeat f_equal; ring.
Qed.

(** X6: when the negative part has no mass its centroid is the zero
    vector by convention, so [dct] is the distance of the positive
    centroid from the coordinate zero, wherever the grid lies. *)
Theorem compute_dct_and_qct_massless_minus
    plus minus origin grid_size grid_spacing cp :
  np_sum (data minus) = 0%Qc ->
  value (calculate_centroid plus origin grid_size grid_spacing) = Ok cp ->
  value (compute_dct_and_qct plus minus origin grid_size grid_spacing)
  = Ok (euclidean_norm cp, np_sum (data plus), cp, [0; 0; 0]%Qc).
Proof.
  intros Hm Hp.
  rewrite (@compute_dct_and_qct_from_centroids _ _ _ _ _ cp [0; 0; 0]%Qc Hp).
  - rewrite vsub_zeros_r by now apply calculate_centroid_length in Hp.
    now rewrite np_linalg_norm_euclidean.
  - now rewrite calculate_centroid_zero.
Qed.

Lemma compute_dct_and_qct_massless_minus_witness :
  value (compute_dct_and_qct single_point (zeros (2, 2, 2)) zero_origin
                             (2, 2, 2)%Z identity_spacing)
  = Ok (euclidean_norm [1; 1; 1]%Qc, np_sum (data single_point),
        [1; 1; 1]%Qc, [0; 0; 0]%Qc).
Proof.
  apply compute_dct_and_qct_massless_minus;
    [qc_eq|exact single_point_centroid].
Defined.

(** ** [compute_density_difference] on arrays of different shapes *)

Lemma broadcast_dim_None m n :
  broadcast_dim m n = None <-> (m <> n /\ m <> 1 /\ n <> 1).
Proof.
  unfold broadcast_dim.
  destruct (Nat.eqb_spec m n), (Nat.eqb_spec m 1), (Nat.eqb_spec n 1);
    split; intros H; try discriminate; try reflexivity; lia.
Qed.

Lemma broadcast_shape_None s t :
  broadcast_shape s t = None <-> incompatible s t.
Proof.
  destruct s as [[sx sy] sz], t as [[tx ty] tz].
  unfold broadcast_shape, incompatible.
  rewrite <- !broadcast_dim_None.
  destruct (broadcast_dim sx tx), (broadcast_dim sy ty), (broadcast_dim sz tz);
    split; intros H; try discriminate; try reflexivity; auto;
    destruct H as [H|[H|H]]; discriminate.
Qed.

(** X8: called on its own, [compute_density_difference] raises
    [ValueError], before logging anything, exactly when the two shapes
    cannot be broadcast; for every other pair of shapes, equal or not, it
    returns two arrays of the broadcast shape. *)
Theorem compute_density_difference_shapes ground excited :
  (incompatible (shape excited) (shape ground) ->
   compute_density_difference ground excited = ([], Raise ValueError)) /\
  (~ incompatible (shape excited) (shape ground) ->
   exists plus minus,
     value (compute_density_difference ground excited) = Ok (plus, minus) /\
     broadcast_shape (shape excited) (shape ground) = Some (shape plus) /\
     shape minus = shape plus).
Proof.
  unfold compute_density_difference, np_where, broadcast2. split.
  - intros H. apply broadcast_shape_None in H. now rewrite H.
  - intros H. rewrite <- broadcast_shape_None in H.
    destruct (broadcast_shape (shape excited) (shape ground)) as [s|];
      [|contradiction].
    rewrite bind_lift_Ok. cbn [amap shape data].
    rewrite broadcast_shape_same, !bind_lift_Ok.
    eexists _, _. split; [reflexivity|]. split; reflexivity.
Qed.

Lemma compute_density_difference_shapes_witness :
  compute_density_difference (zeros (2, 2, 2)) (zeros (3, 3, 3))
  = ([], Raise ValueError) /\
  exists plus minus,
    value (compute_density_difference (cell 1%Qc) single_point) = Ok (plus, minus) /\
    broadcast_shape (2, 2, 2) (1, 1, 1) = Some (shape plus) /\
    shape minus = shape plus.
Proof.
  split.
  - apply (@compute_density_difference_shapes (zeros (2, 2, 2)) (zeros (3, 3, 3))).
    simpl. lia.
  - apply (@compute_density_difference_shapes (cell 1%Qc) single_point).
    simpl. lia.
Defined.

Lemma broadcast_shape_cell s : broadcast_shape s (1, 1, 1) = Some s.
Proof.
  destruct s as [[nx ny] nz]. unfold broadcast_shape, broadcast_dim.
  simpl. destruct (Nat.eqb_spec nx 1), (Nat.eqb_spec ny 1), (Nat.eqb_spec nz 1);
    subst; reflexivity.
Qed.

Lemma broadcast_to_cell s (g : Qc) :
  broadcast_to s (cell g) = repeat g (size s).
Proof.
  unfold broadcast_to, cell; cbn [data shape].
  rewrite <- length_all_indices.
  induction (all_indices s) as [|idx l IH]; [reflexivity|].
  cbn [map length repeat]. f_equal; [|exact IH].
  destruct idx as [[i j] k]. reflexivity.
Qed.

Lemma map2_repeat_r A B C (f : A -> B -> C) l y n :
  length l = n -> map2 f l (repeat y n) = map (fun x => f x y) l.
Proof.
  unfold map2. revert n; induction l as [|x l IH]; intros n H; simpl in *.
  - reflexivity.
  - destruct n as [|n]; [discriminate|]. simpl. f_equal. apply IH. lia.
Qed.

(** X9: a ground array of a single point is not rejected: its value is
    subtracted from every point of the excited array. *)
Theorem compute_density_difference_one_point_ground g excited :
  well_formed excited ->
  value (compute_density_difference (cell g) excited)
  = Ok (mkarray (shape excited)
                (map (fun x => Qcmax (x - g) 0)%Qc (data excited)),
        mkarray (shape excited)
                (map (fun x => Qcmin (x - g) 0)%Qc (data excited))).
Proof.
  intros He. unfold compute_density_difference.
  unfold broadcast2 at 1. cbn [cell shape].
  rewrite broadcast_shape_cell, broadcast_to_same by assumption.
  change (mkarray (1, 1, 1) [g]) with (cell g).
  rewrite broadcast_to_cell, map2_repeat_r by exact He.
  rewrite bind_lift_Ok.
  assert (Hd : well_formed (mkarray (shape excited)
                              (map (fun x => x - g)%Qc (data excited)))).
  { unfold well_formed; cbn [data shape]. now rewrite length_map. }
  rewrite !np_where_same by exact Hd. rewrite !bind_lift_Ok.
  cbn [data shape value snd bind logging ret]. rewrite !map_map.
  do 2 f_equal; f_equal; apply map_ext; intros x;
    [apply positive_part_max|apply negative_part_min].
Qed.

Lemma compute_density_difference_one_point_ground_witness :
  value (compute_density_difference (cell 1%Qc) single_point)
  = Ok (mkarray (2, 2, 2)
                (map (fun x => Qcmax (x - 1) 0)%Qc (data single_point)),
        mkarray (2, 2, 2)
                (map (fun x => Qcmin (x - 1) 0)%Qc (data single_point))).
Proof.
  apply (@compute_density_difference_one_point_ground 1%Qc single_point).
  reflexivity.
Defined.

(** ** What the reader returns *)

Lemma infer_dimension_exact n known x :
  (0 <= n)%Z -> (0 <= known)%Z ->
  infer_dimension n known = Ok x ->
  (Z.of_nat x * known = n)%Z.
Proof.
  unfold infer_dimension. intros Hn Hk.
  destruct (Z.eqb_spec known 0); [discriminate|].
  destruct (Z.eqb_spec (n mod known) 0); [|discriminate].
  simpl. intros H. inversion H; subst x.
  rewrite Z2Nat.id by (apply Z.div_pos; lia).
  rewrite Z.mul_comm. symmetry. apply Z_div_exact_full_2; assumption.
Qed.

Lemma reshape_well_formed A (values : list A) grid_size d :
  reshape values grid_size = Ok d -> well_formed d.
Proof.
  destruct grid_size as [[nx ny] nz]. unfold well_formed.
  reshape_cases nx ny nz; intros Hr; try discriminate;
    apply new_array_Ok in Hr; subst d; cbn [data shape size];
    repeat match goal with
      | E : known_size [_; _] = Some _ |- _ => apply known_size2 in E
      | E : known_size [_; _; _] = Some _ |- _ => apply known_size3 in E
      | E : infer_dimension _ _ = Ok _ |- _ =>
          apply infer_dimension_exact in E; [|lia|nia]
      end; nia.
Qed.

(** X11: the array of a successful read holds exactly as many values as
    its shape has points, also when a size was inferred; and when the
    three grid sizes are non-negative its shape is [grid_size], so the
    returned geometry fits the returned array. *)
Theorem read_cube_file_shape py_int py_float files filename
    origin grid_size grid_spacing d :
  value (read_cube_file py_int py_float files filename)
  = Ok (origin, grid_size, grid_spacing, d) ->
  well_formed d /\
  (non_negative grid_size ->
   grid_size = grid_size_of (shape d) /\
   Z.of_nat (length (data d)) = product grid_size).
Proof.
  intros H.
  apply read_cube_file_Ok in H as (lines & na & values & _ & _ & _ & Hd).
  split; [exact (reshape_well_formed _ _ Hd)|].
  intros Hn. apply reshape_non_negative in Hd as [E ->]; [|assumption].
  cbn [data shape]. split; [|exact E].
  destruct grid_size as [[nx ny] nz]. destruct Hn as (Hx & Hy & Hz).
  unfold grid_size_of. now rewrite !Z2Nat.id.
Qed.

Lemma read_cube_file_shape_witness :
  exists origin grid_spacing d,
    value (read_cube_file decimal_int decimal_float example_files "excited.cube")
    = Ok (origin, (3, 3, 3)%Z, grid_spacing, d) /\
    well_formed d /\
    (3, 3, 3)%Z = grid_size_of (shape d) /\
    Z.of_nat (length (data d)) = product (3, 3, 3)%Z.
Proof.
  assert (H : exists origin grid_spacing d,
             value (read_cube_file decimal_int decimal_float example_files
                                   "excited.cube")
             = Ok (origin, (3, 3, 3)%Z, grid_spacing, d)).
  { eexists _, _, _. vm_compute. reflexivity. }
  destruct H as (origin & grid_spacing & d & H).
  exists origin, grid_spacing, d. split; [exact H|].
  destruct (read_cube_file_shape _ _ _ _ H) as [Hwf Hs].
  split; [exact Hwf|]. apply Hs. simpl. lia.
Defined.

(** ** What the reader does not look at *)

Lemma getitem_firstn A (l : list A) n i :
  i < n -> getitem (firstn n l) i = getitem l i.
Proof.
  intros H. unfold getitem. now rewrite nth_error_firstn, (proj2 (Nat.ltb_lt i n) H).
Qed.

Lemma read_header_firstn py_int py_float lines :
  read_header py_int py_float (firstn 6 lines) = read_header py_int py_float lines.
Proof.
  unfold read_header, read_atom_count_line, read_grid_line.
  now rewrite !getitem_firstn by lia.
Qed.

(** X12: the atom records are skipped unread.  Two files with the same
    first six lines, whose atom count is not negative, and the same lines
    after the atom records are read alike, whatever the atom records hold. *)
Theorem read_cube_file_skips_atom_records py_int py_float files
    filename filename' lines lines' num_atoms origin grid_size grid_spacing :
  files filename = Some lines -> files filename' = Some lines' ->
  firstn 6 lines = firstn 6 lines' ->
  value (read_header py_int py_float lines)
  = Ok (num_atoms, origin, grid_size, grid_spacing) ->
  (0 <= num_atoms)%Z ->
  skipn (6 + Z.to_nat num_atoms) lines = skipn (6 + Z.to_nat num_atoms) lines' ->
  value (read_cube_file py_int py_float files filename')
  = value (read_cube_file py_int py_float files filename).
Proof.
  intros Hf Hf' Hfirst Hh Hn Hrest.
  assert (Hh' : value (read_header py_int py_float lines')
                = Ok (num_atoms, origin, grid_size, grid_spacing)).
  { now rewrite <- read_header_firstn, <- Hfirst, read_header_firstn. }
  assert (Hv : read_values py_float lines' num_atoms
               = read_values py_float lines num_atoms).
  { unfold read_values, slice_from.
    destruct (Z.leb_spec 0 (6 + num_atoms)); [|lia].
    replace (Z.to_nat (6 + num_atoms)) with (6 + Z.to_nat num_atoms) by lia.
    now rewrite Hrest. }
  destruct (value (read_values py_float lines num_atoms)) as [values|e] eqn:E.
  - rewrite (read_cube_file_value _ _ _ _ Hf Hh E).
    rewrite <- Hv in E. now rewrite (read_cube_file_value _ _ _ _ Hf' Hh' E).
  - unfold read_cube_file. rewrite Hf, Hf'.
    rewrite !value_bind_Ok with (a := tt) by reflexivity.
    rewrite value_bind_Ok with (a := lines') by reflexivity.
    rewrite value_bind_Ok with (a := lines) by reflexivity.
    rewrite (value_bind_Ok _ _ Hh), (value_bind_Ok _ _ Hh').
    rewrite <- Hv in E at 1.
    rewrite (value_bind_Raise _ _ E).
    rewrite Hv in E. now rewrite (value_bind_Raise _ _ E).
Qed.

Lemma read_cube_file_skips_atom_records_witness :
  value (read_cube_file decimal_int decimal_float atom_files "garbled.cube")
  = value (read_cube_file decimal_int decimal_float atom_files "atom.cube").
Proof.
  eapply (@read_cube_file_skips_atom_records decimal_int decimal_float
            atom_files "atom.cube" "garbled.cube" _ _ 1%Z);
    try reflexivity.
  lia.
Defined.

Lemma value_for_each_app A B (f : A -> M B) l1 l2 :
  value (for_each f (l1 ++ l2))
  = match value (for_each f l1) with
    | Ok a => match value (for_each f l2) with
              | Ok b => Ok (a ++ b)
              | Raise e => Raise e
              end
    | Raise e => Raise e
    end.
Proof.
  induction l1 as [|x l1 IH]; cbn [app for_each].
  - now destruct (value (for_each f l2)).
  - destruct (value (f x)) as [y|e] eqn:Ey.
    2: now rewrite !(value_bind_Raise _ _ Ey).
    rewrite !(value_bind_Ok _ _ Ey).
    destruct (value (for_each f l1)) as [a|e1] eqn:Ea.
    + rewrite (value_bind_Ok _ _ Ea). cbn [value ret snd].
      destruct (value (for_each f l2)) as [b|e2] eqn:Eb.
      * now rewrite (value_bind_Ok _ _ IH).
      * now rewrite (value_bind_Raise _ _ IH).
    + rewrite (value_bind_Raise _ _ Ea). now rewrite (value_bind_Raise _ _ IH).
Qed.

Lemma value_for_each_concat A B C (f : B -> M C) (g : A -> list B) ls :
  value (per_line <- for_each (fun l => for_each f (g l)) ls ;;
         ret (concat per_line))
  = value (for_each f (flat_map g ls)).
Proof.
  induction ls as [|l ls IH]; simpl.
  - reflexivity.
  - rewrite value_for_each_app.
    destruct (value (for_each f (g l))) as [y|e] eqn:Ey.
    + destruct (value (for_each (fun l => for_each f (g l)) ls)) as [ys|e] eqn:Eys.
      * rewrite (value_bind_Ok _ _ Eys) in IH. simpl in IH. rewrite <- IH.
        erewrite value_bind_Ok.
        2: { rewrite (value_bind_Ok _ _ Ey), (value_bind_Ok _ _ Eys).
             reflexivity. }
        reflexivity.
      * rewrite (value_bind_Raise _ _ Eys) in IH. rewrite <- IH.
        erewrite value_bind_Raise; [reflexivity|].
        now rewrite (value_bind_Ok _ _ Ey), (value_bind_Raise _ _ Eys).
    + erewrite value_bind_Raise; [reflexivity|].
      now rewrite (value_bind_Raise _ _ Ey).
Qed.

Lemma split_from_app s1 s2 token :
  ends_in_space s1 = true ->
  split_from (s1 ++ s2) token = split_from s1 token ++ split s2.
Proof.
  revert token. induction s1 as [|c s1 IH]; intros token H; [discriminate|].
  cbn [append split_from]. destruct s1 as [|c' s1].
  - cbn [ends_in_space] in H. rewrite H. cbn [append split_from].
    now destruct token.
  - change (ends_in_space (String c' s1) = true) in H.
    destruct (is_space c); [destruct token|]; cbn [app]; now rewrite IH.
Qed.

(** The tokens of lines that end in whitespace are the tokens of their
    concatenation. *)
Lemma split_concat ls :
  all_but_last ends_in_space ls = true ->
  split (String.concat EmptyString ls) = flat_map split ls.
Proof.
  induction ls as [|l ls IH]; [reflexivity|].
  destruct ls as [|l' ls].
  - intros _. cbn [String.concat flat_map]. now rewrite app_nil_r.
  - intros H. change (ends_in_space l && all_but_last ends_in_space (l' :: ls)
                      = true) in H.
    apply andb_true_iff in H as [Hl Hls].
    change (String.concat EmptyString (l :: l' :: ls))
      with (l ++ String.concat EmptyString (l' :: ls))%string.
    unfold split at 1. rewrite split_from_app by exact Hl.
    cbn [flat_map] in IH |- *. now rewrite IH.
Qed.

(** X13: the density part is read as one text.  When every line after the
    atom records but the last ends in whitespace, as the lines of
    [readlines] end in a newline, the values read are those of the tokens
    of these lines put together into one string: a line break is
    whitespace like any other, so blank lines and any wrapping are
    accepted, and the first token that is not a number is a
    [ValueError]. *)
Theorem read_values_tokens py_float lines num_atoms :
  all_but_last ends_in_space (slice_from (6 + num_atoms)%Z lines) = true ->
  value (read_values py_float lines num_atoms)
  = value (for_each (float py_float)
             (split (String.concat EmptyString (slice_from (6 + num_atoms)%Z lines)))).
Proof.
  intros H. rewrite (split_concat _ H).
  unfold read_values. apply value_for_each_concat.
Qed.

(** Two values on three lines, one of them blank. *)
Lemma read_values_tokens_witness :
  value (read_values decimal_float wrapped_lines 1)
  = value (for_each (float decimal_float)
             (split ("0.5" ++ newline ++ newline ++ "  0.25" ++ newline)%string)) /\
  value (read_values decimal_float wrapped_lines 1)
  = Ok [Q2Qc (1 # 2); Q2Qc (1 # 4)].
Proof.
  assert (H : value (read_values decimal_float wrapped_lines 1)
              = value (for_each (float decimal_float)
                         (split ("0.5" ++ newline ++ newline ++ "  0.25"
                                 ++ newline)%string))).
  { apply (@read_values_tokens decimal_float wrapped_lines 1). reflexivity. }
  split; [exact H|]. rewrite H. vm_compute. repeat f_equal; qc_list.
Defined.

(** ** The runs of [main] *)

Lemma raises_only_broadcast2 A B C (f : A -> B -> C) a b :
  raises_only parse_error (lift (broadcast2 f a b)).
Proof.
  intros e. unfold broadcast2.
  destruct (broadcast_shape (shape a) (shape b)); simpl; intros H;
    [discriminate|]. right. congruence.
Qed.

Lemma raises_only_dimension n : raises_only parse_error (lift (dimension n)).
Proof.
  intros e. unfold dimension. destruct (n <? 0)%Z; simpl; intros H;
    [|discriminate]. right. congruence.
Qed.

Lemma raises_only_calculate_centroid density origin grid_size grid_spacing :
  raises_only parse_error
    (calculate_centroid density origin grid_size grid_spacing).
Proof.
  unfold calculate_centroid.
  destruct (Qc_eq_bool (np_sum (data density)) 0%Qc) eqn:E.
  - eapply raises_only_Ok. reflexivity.
  - apply Qc_eq_bool_false in E.
    apply raises_only_bind.
    { destruct grid_size as [[nx ny] nz]. unfold np_indices, shape_of.
      repeat (apply raises_only_bind; [try apply raises_only_dimension|intros ? _]);
        eapply raises_only_Ok; reflexivity. }
    intros grid_indices _.
    apply raises_only_bind; [repeat raises_only_step|]. intros grid_positions _.
    apply raises_only_bind.
    { apply raises_only_for_each. intros idx _.
      apply raises_only_bind; [apply raises_only_getitem|]. intros gp _.
      apply raises_only_bind; [apply raises_only_broadcast2|]. intros w _.
      eapply raises_only_Ok. now rewrite divide_nonzero. }
    intros centroid _. repeat raises_only_step.
Qed.

Lemma raises_only_pipeline ground excited origin grid_size grid_spacing :
  raises_only parse_error (pipeline ground excited origin grid_size grid_spacing).
Proof.
  unfold pipeline, compute_density_difference, compute_dct_and_qct, np_where.
  apply raises_only_bind.
  { repeat (apply raises_only_bind; [try apply raises_only_broadcast2|intros ? _]);
      eapply raises_only_Ok; reflexivity. }
  intros deltas _.
  repeat (apply raises_only_bind;
          [try apply raises_only_calculate_centroid|intros ? _]);
    eapply raises_only_Ok; reflexivity.
Qed.

Lemma main_on_failed_read py_int py_float files ground_state_file
    excited_state_file e :
  value (ground <- read_cube_file py_int py_float files ground_state_file ;;
         excited <- read_cube_file py_int py_float files excited_state_file ;;
         ret (ground, snd excited)) = Raise e ->
  value (main py_int py_float files ground_state_file excited_state_file)
  = Ok (Read_failed e) /\
  no_pipeline_work
    (main py_int py_float files ground_state_file excited_state_file).
Proof.
  unfold main, no_pipeline_work.
  pose proof (no_pipeline_work_read_cube_file py_int py_float files
                ground_state_file) as Ng.
  pose proof (no_pipeline_work_read_cube_file py_int py_float files
                excited_state_file) as Ne.
  unfold no_pipeline_work in Ng, Ne.
  destruct (read_cube_file py_int py_float files ground_state_file)
    as [lg [rg|eg]];
    destruct (read_cube_file py_int py_float files excited_state_file)
      as [le [re|ee]];
    cbn; intros H; inversion H; subst; cbn in Ng, Ne |- *;
    (split; [reflexivity|]);
    repeat first [apply Forall_cons; [reflexivity|]
                 | apply Forall_app; split
                 | assumption | apply Forall_nil ].
Qed.

(** X14: [main] reports every failure of the reader instead of raising
    it: when the ground file cannot be read the run ends in that failure
    without opening the excited file, and when only the excited file
    fails the run ends in that failure; in both cases the log ends with
    the error and holds nothing of the pipeline. *)
Theorem main_reports_read_failure py_int py_float files
    ground_state_file excited_state_file e :
  let read := read_cube_file py_int py_float files in
  let run := main py_int py_float files ground_state_file excited_state_file in
  (value (read ground_state_file) = Raise e ->
   run = ([(INFO, Starting_calculation)]
            ++ logged (read ground_state_file)
            ++ [(ERROR, Error_while_reading e)],
          Ok (Read_failed e))) /\
  (forall r, value (read ground_state_file) = Ok r ->
   value (read excited_state_file) = Raise e ->
   run = ([(INFO, Starting_calculation)]
            ++ logged (read ground_state_file)
            ++ logged (read excited_state_file)
            ++ [(ERROR, Error_while_reading e)],
          Ok (Read_failed e))).
Proof.
  intros read run. unfold run, read, main.
  destruct (read_cube_file py_int py_float files ground_state_file) as [lg rg].
  destruct (read_cube_file py_int py_float files excited_state_file) as [le re].
  split.
  - cbn. intros ->. cbn. now rewrite !app_nil_r.
  - intros r. cbn. intros -> ->. cbn. now rewrite !app_nil_r, <- !app_assoc.
Qed.

Lemma main_reports_read_failure_witness :
  main decimal_int decimal_float example_files "missing.cube" "excited.cube"
  = ([(INFO, Starting_calculation);
      (INFO, Reading_cube_file "missing.cube");
      (ERROR, Cube_file_not_found "missing.cube");
      (ERROR, Error_while_reading FileNotFoundError)],
     Ok (Read_failed FileNotFoundError)).
Proof.
  apply (@main_reports_read_failure decimal_int decimal_float example_files
           "missing.cube" "excited.cube" FileNotFoundError).
  reflexivity.
Defined.

(** X15: an exception that escapes [main] is an [IndexError] or a
    [ValueError] raised by the pipeline after both files were read with
    equal shapes; no failure of the reader and no shape mismatch escapes. *)
Theorem main_escaping_exception py_int py_float files
    ground_state_file excited_state_file e :
  value (main py_int py_float files ground_state_file excited_state_file)
  = Raise e ->
  (e = IndexError \/ e = ValueError) /\
  exists origin grid_size grid_spacing ground_density
         origin' grid_size' grid_spacing' excited_density,
    value (read_cube_file py_int py_float files ground_state_file)
    = Ok (origin, grid_size, grid_spacing, ground_density) /\
    value (read_cube_file py_int py_float files excited_state_file)
    = Ok (origin', grid_size', grid_spacing', excited_density) /\
    shape ground_density = shape excited_density /\
    value (pipeline ground_density excited_density
                    origin grid_size grid_spacing) = Raise e.
Proof.
  intros H.
  destruct (value (read_cube_file py_int py_float files ground_state_file))
    as [[[[o gs] sp] gd]|x] eqn:Eg.
  2: { destruct (@main_on_failed_read py_int py_float files ground_state_file
                   excited_state_file x) as [E _].
       - now rewrite (value_bind_Raise _ _ Eg).
       - rewrite E in H. discriminate. }
  destruct (value (read_cube_file py_int py_float files excited_state_file))
    as [[[[o' gs'] sp'] ed]|x] eqn:Ee.
  2: { destruct (@main_on_failed_read py_int py_float files ground_state_file
                   excited_state_file x) as [E _].
       - rewrite (value_bind_Ok _ _ Eg). now rewrite (value_bind_Raise _ _ Ee).
       - rewrite E in H. discriminate. }
  destruct (shape_eqb (shape gd) (shape ed)) eqn:Es.
  - apply shape_eqb_eq in Es.
    rewrite (main_on_equal_shapes _ _ _ _ _ Eg Ee Es) in H.
    destruct (value (pipeline gd ed o gs sp)) as [[[[dct qct] cp] cm]|x] eqn:Ep;
      [discriminate|].
    inversion H; subst x. split.
    + exact (raises_only_pipeline _ _ _ _ _ Ep).
    + exists o, gs, sp, gd, o', gs', sp', ed. auto.
  - assert (Hs : shape gd <> shape ed).
    { intros Hs. apply shape_eqb_eq in Hs. congruence. }
    rewrite (main_on_different_shapes _ _ _ _ _ Eg Ee Hs) in H. discriminate.
Qed.

(** A header whose origin has two components is read, and the run then
    fails in the first centroid. *)
Lemma main_escaping_exception_witness :
  value (main decimal_int decimal_float one_point_files
              "low_short_origin.cube" "high.cube") = Raise IndexError /\
  exists origin grid_size grid_spacing ground_density
         origin' grid_size' grid_spacing' excited_density,
    value (read_cube_file decimal_int decimal_float one_point_files
                          "low_short_origin.cube")
    = Ok (origin, grid_size, grid_spacing, ground_density) /\
    value (read_cube_file decimal_int decimal_float one_point_files "high.cube")
    = Ok (origin', grid_size', grid_spacing', excited_density) /\
    shape ground_density = shape excited_density /\
    value (pipeline ground_density excited_density
                    origin grid_size grid_spacing) = Raise IndexError.
Proof.
  assert (H : value (main decimal_int decimal_float one_point_files
                          "low_short_origin.cube" "high.cube")
              = Raise IndexError) by (vm_compute; reflexivity).
  split; [exact H|].
  exact (proj2 (main_escaping_exception _ _ _ _ _ H)).
Defined.

(** X16: [main] takes the geometry from the ground file alone.  When both
    reads succeed with equal shapes the run ends in the results of the
    pipeline on the two arrays and the ground file's geometry, or in the
    pipeline's exception; and two excited files holding the same array
    give the same outcome, whatever their own origin, sizes and spacing. *)
Theorem main_uses_ground_geometry py_int py_float files
    ground_state_file excited_state_file excited_state_file'
    origin grid_size grid_spacing ground_density
    origin1 grid_size1 grid_spacing1 origin2 grid_size2 grid_spacing2
    excited_density :
  let read := read_cube_file py_int py_float files in
  value (read ground_state_file)
  = Ok (origin, grid_size, grid_spacing, ground_density) ->
  value (read excited_state_file)
  = Ok (origin1, grid_size1, grid_spacing1, excited_density) ->
  value (read excited_state_file')
  = Ok (origin2, grid_size2, grid_spacing2, excited_density) ->
  value (main py_int py_float files ground_state_file excited_state_file')
  = value (main py_int py_float files ground_state_file excited_state_file) /\
  (shape ground_density = shape excited_density ->
   value (main py_int py_float files ground_state_file excited_state_file)
   = match value (pipeline ground_density excited_density
                           origin grid_size grid_spacing) with
     | Ok (dct, qct, cp, cm) => Ok (Results dct qct cp cm)
     | Raise e => Raise e
     end).
Proof.
  intros read Hg H1 H2. split.
  - destruct (shape_eqb (shape ground_density) (shape excited_density)) eqn:Es.
    + apply shape_eqb_eq in Es.
      now rewrite (main_on_equal_shapes _ _ _ _ _ Hg H1 Es),
        (main_on_equal_shapes _ _ _ _ _ Hg H2 Es).
    + assert (Hs : shape ground_density <> shape excited_density).
      { intros Hs. apply shape_eqb_eq in Hs. congruence. }
      now rewrite (main_on_different_shapes _ _ _ _ _ Hg H1 Hs),
        (main_on_different_shapes _ _ _ _ _ Hg H2 Hs).
  - intros Es. exact (main_on_equal_shapes _ _ _ _ _ Hg H1 Es).
Qed.

Lemma main_uses_ground_geometry_witness :
  value (main decimal_int decimal_float one_point_files
              "low.cube" "high_elsewhere.cube")
  = value (main decimal_int decimal_float one_point_files
                "low.cube" "high.cube").
Proof.
  eapply (@main_uses_ground_geometry decimal_int decimal_float one_point_files
            "low.cube" "high.cube" "high_elsewhere.cube").
  - vm_compute. reflexivity.
  - vm_compute. reflexivity.
  - vm_compute. reflexivity.
Defined.

(** X17: two identical inputs give no transfer.  On one array taken as
    ground and as excited the pipeline returns [dct = 0], [qct = 0] and
    two zero centroids whatever the geometry, and [main] run on one
    readable file twice ends in these results. *)
Theorem identical_inputs_give_zero :
  (forall density origin grid_size grid_spacing,
     well_formed density ->
     value (pipeline density density origin grid_size grid_spacing)
     = Ok (0%R, 0%Qc, [0; 0; 0]%Qc, [0; 0; 0]%Qc)) /\
  (forall py_int py_float files filename origin grid_size grid_spacing density,
     value (read_cube_file py_int py_float files filename)
     = Ok (origin, grid_size, grid_spacing, density) ->
     value (main py_int py_float files filename filename)
     = Ok (Results 0%R 0%Qc [0; 0; 0]%Qc [0; 0; 0]%Qc)).
Proof.
  split.
  - intros. now apply pipeline_identical_grids.
  - intros py_int py_float files filename o gs sp d H.
    rewrite (main_on_equal_shapes _ _ _ _ _ H H eq_refl).
    rewrite pipeline_identical_grids; [reflexivity|].
    apply read_cube_file_Ok in H as (? & ? & values & _ & _ & _ & Hd).
    exact (reshape_well_formed _ _ Hd).
Qed.

Lemma identical_inputs_give_zero_witness :
  value (pipeline single_point single_point [] (-(1), 0, 5)%Z [[]])
  = Ok (0%R, 0%Qc, [0; 0; 0]%Qc, [0; 0; 0]%Qc) /\
  value (main decimal_int decimal_float example_files
              "inferred.cube" "inferred.cube")
  = Ok (Results 0%R 0%Qc [0; 0; 0]%Qc [0; 0; 0]%Qc).
Proof.
  destruct identical_inputs_give_zero as [Hp Hm]. split.
  - apply Hp. reflexivity.
  - assert (H : exists origin grid_size grid_spacing density,
               value (read_cube_file decimal_int decimal_float example_files
                                     "inferred.cube")
               = Ok (origin, grid_size, grid_spacing, density)).
    { eexists _, _, _, _. vm_compute. reflexivity. }
    destruct H as (o & gs & sp & d & H). exact (Hm _ _ _ _ _ _ _ _ H).
Defined.

(** ** More on the reader *)

(** X18: [read_cube_file] raises [FileNotFoundError] exactly when the file
    does not exist, and then it has logged the attempt and the error and
    nothing else. *)
Theorem read_cube_file_missing_file py_int py_float files filename :
  (files filename = None ->
   read_cube_file py_int py_float files filename
   = ([(INFO, Reading_cube_file filename);
       (ERROR, Cube_file_not_found filename)],
      Raise FileNotFoundError)) /\
  (value (read_cube_file py_int py_float files filename)
   = Raise FileNotFoundError ->
   files filename = None).
Proof.
  split.
  - intros H. unfold read_cube_file. now rewrite H.
  - intros H. destruct (files filename) as [lines|] eqn:E; [|reflexivity].
    destruct (raises_only_read_cube_file py_int py_float _ _ E H) as [[|]|];
      discriminate.
Qed.

Lemma read_cube_file_missing_file_witness :
  read_cube_file decimal_int decimal_float example_files "missing.cube"
  = ([(INFO, Reading_cube_file "missing.cube");
      (ERROR, Cube_file_not_found "missing.cube")],
     Raise FileNotFoundError).
Proof.
  apply (@read_cube_file_missing_file decimal_int decimal_float example_files
           "missing.cube").
  reflexivity.
Defined.

Lemma header_line_lengths py_int py_float lines i line r :
  nth_error lines (3 + i) = Some line ->
  value (read_grid_line py_int py_float lines i) = Ok r ->
  length (snd r) = length (split line) - 1.
Proof.
  unfold read_grid_line, getitem. intros E. rewrite E, bind_lift_Ok. intros H.
  apply value_bind_inv in H as (token & Ht & H).
  apply value_bind_inv in H as (n & _ & H).
  apply value_bind_inv in H as (xs & Hxs & H).
  simpl in H. inversion H; subst r. cbn [snd].
  apply for_each_length in Hxs. rewrite Hxs.
  destruct (split line); simpl; lia.
Qed.

(** X19: the reader takes the origin and the three spacing rows as long as
    their lines make them: each has as many components as its header line
    has tokens after the first, three or not. *)
Theorem read_header_lengths py_int py_float lines
    num_atoms origin grid_size grid_spacing :
  value (read_header py_int py_float lines)
  = Ok (num_atoms, origin, grid_size, grid_spacing) ->
  exists l2 l3 l4 l5 rx ry rz,
    nth_error lines 2 = Some l2 /\ nth_error lines 3 = Some l3 /\
    nth_error lines 4 = Some l4 /\ nth_error lines 5 = Some l5 /\
    grid_spacing = [rx; ry; rz] /\
    length origin = length (split l2) - 1 /\
    length rx = length (split l3) - 1 /\
    length ry = length (split l4) - 1 /\
    length rz = length (split l5) - 1.
Proof.
  unfold read_header. intros H.
  apply value_bind_inv in H as (first & H2 & H).
  apply value_bind_inv in H as (x & H3 & H).
  apply value_bind_inv in H as (y & H4 & H).
  apply value_bind_inv in H as (z & H5 & H).
  apply value_bind_inv in H as (rows & Hrows & H).
  assert (Erows : rows = [snd x; snd y; snd z]).
  { unfold np_array2 in Hrows. destruct (forallb _ _); simpl in Hrows;
      congruence. }
  simpl in H. inversion H; subst; clear H.
  destruct (read_grid_line_Ok _ _ _ _ H3) as (l3 & E3 & _).
  destruct (read_grid_line_Ok _ _ _ _ H4) as (l4 & E4 & _).
  destruct (read_grid_line_Ok _ _ _ _ H5) as (l5 & E5 & _).
  pose proof (header_line_lengths _ _ _ _ E3 H3) as L3.
  pose proof (header_line_lengths _ _ _ _ E4 H4) as L4.
  pose proof (header_line_lengths _ _ _ _ E5 H5) as L5.
  unfold read_atom_count_line in H2.
  apply value_bind_inv in H2 as (l2 & E2 & H2).
  apply value_bind_inv in H2 as (token & Ht & H2).
  apply value_bind_inv in H2 as (n & _ & H2).
  apply value_bind_inv in H2 as (xs & Hxs & H2).
  simpl in H2. inversion H2; subst first; clear H2. cbn [fst snd].
  apply for_each_length in Hxs. apply getitem_Ok in E2.
  exists l2, l3, l4, l5, (snd x), (snd y), (snd z).
  repeat (split; [assumption|]).
  split; [reflexivity|]. split; [|auto].
  rewrite Hxs. destruct (split l2); simpl; lia.
Qed.

Lemma read_header_lengths_witness :
  exists num_atoms origin grid_size grid_spacing,
    value (read_header decimal_int decimal_float
             (cube_lines ["0 0.0 0.0"; "1 1.0 0.0 0.0 9.0"; "1 0.0 1.0 0.0 9.0";
                          "1 0.0 0.0 1.0 9.0"]%string []))
    = Ok (num_atoms, origin, grid_size, grid_spacing) /\
    length origin = 2 /\
    Forall (fun row => length row = 4) grid_spacing.
Proof.
  assert (H : exists num_atoms origin grid_size grid_spacing,
             value (read_header decimal_int decimal_float
                      (cube_lines ["0 0.0 0.0"; "1 1.0 0.0 0.0 9.0";
                                   "1 0.0 1.0 0.0 9.0"; "1 0.0 0.0 1.0 9.0"]%string
                                  []))
             = Ok (num_atoms, origin, grid_size, grid_spacing)).
  { eexists _, _, _, _. vm_compute. reflexivity. }
  destruct H as (na & o & gs & sp & H).
  exists na, o, gs, sp. split; [exact H|].
  destruct (read_header_lengths _ _ _ H)
    as (l2 & l3 & l4 & l5 & rx & ry & rz & E2 & E3 & E4 & E5 & -> & Lo & Lx & Ly & Lz).
  vm_compute in E2, E3, E4, E5.
  inversion E2; inversion E3; inversion E4; inversion E5; subst.
  split; [exact Lo|]. repeat constructor; assumption.
Defined.

(** ** A field that does not fit the grid *)

(** X20: when the total is not zero and the geometry is well formed, a
    field whose shape cannot be broadcast against the grid makes
    [calculate_centroid] raise [ValueError]. *)
Theorem calculate_centroid_shape_mismatch
    density origin grid_spacing s ox oy oz sx sy sz :
  origin = [ox; oy; oz] ->
  diagonal grid_spacing = Some (sx, sy, sz) ->
  np_sum (data density) <> 0%Qc ->
  incompatible s (shape density) ->
  value (calculate_centroid density origin (grid_size_of s) grid_spacing)
  = Raise ValueError.
Proof.
  intros -> Hdiag Hsum Hs.
  destruct (diagonal_rows _ Hdiag) as (r0 & a & r1 & b & c' & r2 & rest & ->).
  unfold calculate_centroid.
  apply Qc_eq_bool_false in Hsum. rewrite Hsum.
  unfold np_indices. rewrite shape_of_grid_size_of, bind_ret, bind_ret.
  cbn [for_each map].
  repeat (progress (cbn [getitem nth_error]; rewrite ?bind_lift_Ok, ?bind_ret)).
  unfold amap. cbn [data shape].
  unfold broadcast2 at 1. cbn [shape].
  apply broadcast_shape_None in Hs. rewrite Hs. reflexivity.
Qed.

Lemma calculate_centroid_shape_mismatch_witness :
  value (calculate_centroid single_point zero_origin (3, 3, 3)%Z identity_spacing)
  = Raise ValueError.
Proof.
  apply (@calculate_centroid_shape_mismatch single_point zero_origin
           identity_spacing (3, 3, 3) 0%Qc 0%Qc 0%Qc 1%Qc 1%Qc 1%Qc);
    try reflexivity.
  - qc_neq.
  - simpl. lia.
Defined.
